(** * viz-store: a shallow embedding of [app.py]

    The dashboard script has three functions that carry behaviour:
    [load_themes] (theme files to a name-indexed mapping), [get_mock_data]
    (twelve synthetic monthly series per region, memoised by
    [@st.cache_data]) and [create_chart] (a themed line chart of one table).

    Modelling choices, stated once:
    - Python floats are IEEE binary64, so they are Rocq's primitive floats;
      Python ints are [Z], converted where the source mixes them with floats.
    - Exceptions are a [result]; the process state touched by the code
      (NumPy's global generator, Streamlit's cache) is threaded explicitly.
    - Library calls (pandas, NumPy, plotly express, PyYAML, pathlib) are
      modelled at their documented interface, only as far as [app.py] uses
      them.  Plotly's validation of property values is outside the model:
      a figure stores the values it is given. *)

From Stdlib Require Import ZArith String Ascii List PrimFloat Uint63 Lia.
From stdpp Require Import gmap strings list fin_maps pretty.

Set Warnings "-inexact-float".
Local Open Scope string_scope.
Local Open Scope Z_scope.

(** ** Exceptions and results *)

Inductive exn : Type :=
| KeyError (key : string)
| IndexError
| ValueError (what : string)
| ZeroDivisionError
| TypeError (what : string)
| OSError (what : string)
| YAMLError.

Inductive result (A : Type) : Type :=
| Ok (a : A)
| Raise (e : exn).
Arguments Ok {A} a.
Arguments Raise {A} e.

Definition rbind {A B} (r : result A) (k : A -> result B) : result B :=
  match r with
  | Ok a => k a
  | Raise e => Raise e
  end.

Declare Scope result_scope.
Delimit Scope result_scope with result.
Notation "'let!' x := r 'in' k" := (rbind r (fun x => k))
  (at level 10, x name, r at level 100, k at level 200) : result_scope.

(** ** Timestamps and [pd.date_range(..., freq='M')] *)

Record date : Type := mkdate { year : Z; month : Z; day : Z }.

Definition is_leap (y : Z) : bool :=
  (y mod 4 =? 0) && (negb (y mod 100 =? 0) || (y mod 400 =? 0)).

Definition days_in_month (y m : Z) : Z :=
  if m =? 2 then (if is_leap y then 29 else 28)
  else if (m =? 4) || (m =? 6) || (m =? 9) || (m =? 11) then 30
  else 31.

Definition date_leb (a b : date) : bool :=
  (year a <? year b)
  || ((year a =? year b)
      && ((month a <? month b)
          || ((month a =? month b) && (day a <=? day b)))).

(** Months counted from year 0: January of year [y] is [12 * y]. *)
Definition month_index (d : date) : Z := 12 * year d + (month d - 1).

Definition month_end (k : Z) : date :=
  let y := k / 12 in
  let m := k mod 12 + 1 in
  mkdate y m (days_in_month y m).

(** [pd.date_range(start, end, freq='M')]: the month-end timestamps lying in
    the closed interval [start, end], in increasing order. *)
Definition date_range_M (start stop : date) : list date :=
  filter (fun d => date_leb start d && date_leb d stop)
    (map month_end
       (seqZ (month_index start) (month_index stop - month_index start + 1))).

(** ** Tables *)

Inductive column : Type :=
| ColDatetime (v : list date)
| ColFloat (v : list float)
| ColInt (v : list Z)
| ColBool (v : list bool)
| ColObject (v : list string).

Definition column_length (c : column) : nat :=
  match c with
  | ColDatetime v => length v
  | ColFloat v => length v
  | ColInt v => length v
  | ColBool v => length v
  | ColObject v => length v
  end.

(** [np.number] covers the float and integer dtypes, not bool, datetime or
    object. *)
Definition is_numeric (c : column) : bool :=
  match c with
  | ColFloat _ | ColInt _ => true
  | _ => false
  end.

Record DataFrame : Type := mkDataFrame { df_columns : list (string * column) }.

Fixpoint assoc {A} (k : string) (l : list (string * A)) : option A :=
  match l with
  | [] => None
  | (k', v) :: l' => if String.eqb k k' then Some v else assoc k l'
  end.

Definition df_get (df : DataFrame) (name : string) : option column :=
  assoc name (df_columns df).

(** [pd.DataFrame({...})] of a dict of arrays: the arrays must all have the
    same length. *)
Definition pd_DataFrame (cols : list (string * column)) : result DataFrame :=
  match cols with
  | [] => Ok (mkDataFrame [])
  | (_, c) :: rest =>
      if forallb (fun kc => Nat.eqb (column_length (snd kc)) (column_length c)) rest
      then Ok (mkDataFrame cols)
      else Raise (ValueError "All arrays must be of the same length")
  end.

(** [data.select_dtypes(include=[np.number]).columns] *)
Definition select_numeric_columns (df : DataFrame) : list string :=
  map fst (filter (fun kc => is_numeric (snd kc)) (df_columns df)).

(** ** NumPy: the global generator, [np.random.normal], [np.cumsum]

    The legacy global generator is a hidden state from which standard normal
    deviates are drawn one at a time; [np.random.normal(loc, scale, size)]
    returns [loc + scale * z] for [size] consecutive deviates [z] and raises
    [ValueError] on a negative [scale].  The generator itself is an
    interface: nothing in [app.py] depends on how deviates are produced. *)

Class Generator : Type := {
  rng : Type;
  gauss : rng -> float * rng
}.

(** A Python int used where NumPy expects a double. *)
Definition float_of_int (z : Z) : float :=
  if z <? 0 then (- of_uint63 (Uint63.of_Z (- z)))%float
  else of_uint63 (Uint63.of_Z z).

Fixpoint cumsum_from (acc : float) (l : list float) : list float :=
  match l with
  | [] => []
  | x :: l' => let s := (acc + x)%float in s :: cumsum_from s l'
  end.

Definition np_cumsum (l : list float) : list float :=
  match l with
  | [] => []
  | x :: l' => x :: cumsum_from x l'
  end.

(** Array-with-scalar arithmetic broadcasts the scalar. *)
Definition arr_add (l : list float) (c : float) : list float :=
  map (fun x => (x + c)%float) l.
Definition arr_mul (l : list float) (c : float) : list float :=
  map (fun x => (x * c)%float) l.

Section WithGenerator.
Context {G : Generator}.

Fixpoint gauss_n (n : nat) (s : rng) : list float * rng :=
  match n with
  | O => ([], s)
  | S n' =>
      let '(z, s1) := gauss s in
      let '(zs, s2) := gauss_n n' s1 in
      (z :: zs, s2)
  end.

(** One call of [np.random.normal], as recorded in the call log. *)
Record normal_call : Type :=
  mkcall { call_loc : float; call_scale : float; call_size : nat }.

(** The part of the process state [get_mock_data] acts on: the generator and
    (ghost) the log of the [np.random.normal] calls made so far. *)
Record np_world : Type :=
  mkworld { np_state : rng; np_calls : list normal_call }.

(** Computations that may raise and that act on the generator. *)
Definition py (A : Type) : Type := np_world -> result A * np_world.

Definition ret {A} (a : A) : py A := fun w => (Ok a, w).

Definition bind {A B} (m : py A) (k : A -> py B) : py B :=
  fun w =>
    match m w with
    | (Ok a, w') => k a w'
    | (Raise e, w') => (Raise e, w')
    end.

Definition lift {A} (r : result A) : py A := fun w => (r, w).

Definition np_random_normal (loc scale : float) (size : nat) : py (list float) :=
  fun w =>
    if (scale <? 0)%float then (Raise (ValueError "scale < 0"), w)
    else
      let '(zs, s') := gauss_n size (np_state w) in
      (Ok (map (fun z => (loc + scale * z)%float) zs),
       mkworld s' (np_calls w ++ [mkcall loc scale size])).

End WithGenerator.

Declare Scope py_scope.
Delimit Scope py_scope with py.
Notation "'let*' x := m 'in' k" := (bind m (fun x => k))
  (at level 10, x name, m at level 100, k at level 200) : py_scope.

(** ** [get_mock_data] (the function body, lines 22-98)

    The returned dict keeps insertion order, so a series collection is an
    association list.  Draws happen in source order, each table being built
    right after the draws of its columns. *)

Definition collection : Type := list (string * DataFrame).

Section MockData.
Context {G : Generator}.
Local Open Scope py_scope.

Definition get_mock_data (region : string) : py collection :=
  let dates := date_range_M (mkdate 2020 1 1) (mkdate 2023 12 31) in
  let '(emp_base, gdp_base, house_base, wage_base) :=
    if String.eqb region "us" then (150000, 23000, 400000, 35)
    else if String.eqb region "aus" then (12000, 2000, 800000, 45)
    else (160000, 18000, 300000, 30) in
  let emp := float_of_int emp_base in
  let gdp := float_of_int gdp_base in
  let* full_time := np_random_normal emp (emp * 0.04)%float (length dates) in
  let* part_time :=
    np_random_normal (emp * 0.6)%float (emp * 0.02)%float (length dates) in
  let* employment :=
    lift (pd_DataFrame [("Date", ColDatetime dates);
                        ("Full Time", ColFloat full_time);
                        ("Part Time", ColFloat part_time)]) in
  let* rate :=
    np_random_normal
      (if String.eqb region "us" then 5.5
       else if String.eqb region "aus" then 4.5 else 6.5)%float
      0.5%float (length dates) in
  let* unemployment :=
    lift (pd_DataFrame [("Date", ColDatetime dates); ("Rate", ColFloat rate)]) in
  let* gdp_steps := np_random_normal 0.5%float 0.2%float (length dates) in
  let* gdp_growth :=
    lift (pd_DataFrame
            [("Date", ColDatetime dates);
             ("GDP", ColFloat (arr_add (arr_mul (np_cumsum gdp_steps) gdp) gdp))]) in
  let* cpi_steps := np_random_normal 0.2%float 0.1%float (length dates) in
  let* cpi :=
    lift (pd_DataFrame
            [("Date", ColDatetime dates);
             ("CPI", ColFloat
                (arr_add (np_cumsum cpi_steps)
                   (float_of_int
                      (if String.eqb region "us" then 100
                       else if String.eqb region "aus" then 110 else 105))))]) in
  let* wage_steps := np_random_normal 0.3%float 0.1%float (length dates) in
  let* wages :=
    lift (pd_DataFrame
            [("Date", ColDatetime dates);
             ("Wages", ColFloat
                (arr_add (np_cumsum wage_steps) (float_of_int wage_base)))]) in
  let* house_steps :=
    np_random_normal (float_of_int 5000) (float_of_int 1000) (length dates) in
  let* housing :=
    lift (pd_DataFrame
            [("Date", ColDatetime dates);
             ("Median Price", ColFloat
                (arr_add (np_cumsum house_steps) (float_of_int house_base)))]) in
  let* rate_steps := np_random_normal 0.02%float 0.01%float (length dates) in
  let* interest :=
    lift (pd_DataFrame
            [("Date", ColDatetime dates);
             ("Rate", ColFloat
                (arr_add (np_cumsum rate_steps)
                   (if String.eqb region "us" then 4.5
                    else if String.eqb region "aus" then 3.5 else 2.5)%float))]) in
  let* exports :=
    np_random_normal (gdp * 0.12)%float (gdp * 0.01)%float (length dates) in
  let* imports :=
    np_random_normal (gdp * 0.14)%float (gdp * 0.01)%float (length dates) in
  let* trade :=
    lift (pd_DataFrame [("Date", ColDatetime dates);
                        ("Exports", ColFloat exports);
                        ("Imports", ColFloat imports)]) in
  let* business_raw :=
    np_random_normal (float_of_int 100) (float_of_int 5) (length dates) in
  let* business :=
    lift (pd_DataFrame
            [("Date", ColDatetime dates);
             ("Index", ColFloat
                (arr_mul business_raw
                   (if String.eqb region "us" then 1.1
                    else if String.eqb region "aus" then 1.0 else 0.9)%float))]) in
  let* retail_steps := np_random_normal 0.4%float 0.1%float (length dates) in
  let* retail :=
    lift (pd_DataFrame
            [("Date", ColDatetime dates);
             ("Sales", ColFloat
                (arr_add (np_cumsum retail_steps)
                   (float_of_int
                      (if String.eqb region "us" then 1000
                       else if String.eqb region "aus" then 800 else 900))))]) in
  let* manufacturing_raw :=
    np_random_normal (float_of_int 55) (float_of_int 3) (length dates) in
  let* manufacturing :=
    lift (pd_DataFrame
            [("Date", ColDatetime dates);
             ("Index", ColFloat
                (arr_mul manufacturing_raw
                   (if String.eqb region "us" then 1.1
                    else if String.eqb region "aus" then 0.9 else 1.0)%float))]) in
  let* consumer_raw :=
    np_random_normal (float_of_int 95) (float_of_int 4) (length dates) in
  let* consumer :=
    lift (pd_DataFrame
            [("Date", ColDatetime dates);
             ("Index", ColFloat
                (arr_mul consumer_raw
                   (if String.eqb region "us" then 1.2
                    else if String.eqb region "aus" then 1.1 else 0.9)%float))]) in
  ret [("Employment Trends", employment);
       ("Unemployment Rate", unemployment);
       ("GDP Growth", gdp_growth);
       ("CPI Trends", cpi);
       ("Wage Growth", wages);
       ("Housing Prices", housing);
       ("Interest Rates", interest);
       ("Trade Balance", trade);
       ("Business Confidence", business);
       ("Retail Sales", retail);
       ("Manufacturing Index", manufacturing);
       ("Consumer Confidence", consumer)].

End MockData.

(** ** [@st.cache_data] (line 21)

    Streamlit memoises the decorated function per argument value for the
    life of the process: a hit returns (a copy of) the stored value and does
    not run the body; a miss runs the body and stores its return value.  A
    raised exception is not stored.  The name [get_mock_data] above is the
    [def]; [cached_get_mock_data] is what the name is bound to after
    decoration, the function [main] calls. *)

Section Cache.
Context {G : Generator}.

Record session : Type :=
  mksession { world : np_world; cache : gmap string collection }.

Definition st_cache_data (f : string -> py collection) (arg : string)
  : session -> result collection * session :=
  fun ss =>
    match cache ss !! arg with
    | Some v => (Ok v, ss)
    | None =>
        match f arg (world ss) with
        | (Ok v, w') => (Ok v, mksession w' (<[arg := v]> (cache ss)))
        | (Raise e, w') => (Raise e, mksession w' (cache ss))
        end
    end.

Definition cached_get_mock_data : string -> session -> result collection * session :=
  st_cache_data get_mock_data.

End Cache.

(** ** Theme documents *)

#[warnings="-register-all"]
Inductive yaml : Type :=
| YNull
| YBool (b : bool)
| YInt (z : Z)
| YFloat (f : float)
| YStr (s : string)
| YSeq (items : list yaml)
| YMap (entries : gmap string yaml).

(** [theme_config[key]] *)
Definition dict_getitem (d : gmap string yaml) (key : string) : result yaml :=
  match d !! key with
  | Some v => Ok v
  | None => Raise (KeyError key)
  end.

(** [theme_config.get(key, dflt)] *)
Definition dict_get (d : gmap string yaml) (key : string) (dflt : yaml) : yaml :=
  default dflt (d !! key).

(** ** Plotly figures, as far as [create_chart] sets them *)

Record trace : Type := mktrace {
  tr_name : string;
  tr_x : column;
  tr_y : column;
  tr_line_color : yaml;
  tr_line_width : option Z;
  tr_hovertemplate : option string
}.

Record axis : Type := mkaxis {
  showgrid : option bool;
  gridwidth : option Z;
  gridcolor : option yaml;
  showline : option bool;
  linewidth : option Z;
  linecolor : option yaml;
  tickformat : option string;
  tickfont_color : option yaml
}.

Record margins : Type := mkmargins { m_t : Z; m_l : Z; m_r : Z; m_b : Z }.

Record hoverlabel_t : Type := mkhoverlabel {
  hl_bgcolor : option yaml;
  hl_font_size : option Z;
  hl_font_family : option yaml
}.

Record layout : Type := mklayout {
  template : yaml;
  font_family : option yaml;
  font_color : option yaml;
  plot_bgcolor : option yaml;
  paper_bgcolor : option yaml;
  margin : option margins;
  height : option Z;
  xaxis : axis;
  yaxis : axis;
  hoverlabel : hoverlabel_t
}.

Record Figure : Type := mkFigure { fig_data : list trace; fig_layout : layout }.

Definition empty_axis : axis := mkaxis None None None None None None None None.

(** The [y] argument of [px.line]: one column name, or a list of them
    (wide form). *)
Inductive y_arg : Type :=
| YOne (name : string)
| YMany (names : list string).

Definition px_column (data : DataFrame) (name : string) : result column :=
  match df_get data name with
  | Some c => Ok c
  | None => Raise (ValueError name)
  end.

(** The discrete colour sequence: colours are handed out in order and the
    sequence is reused cyclically; indexing an empty one divides by zero.
    Only a YAML sequence is modelled as a palette. *)
Definition palette_colors (palette : yaml) : result (list yaml) :=
  match palette with
  | YSeq [] => Raise ZeroDivisionError
  | YSeq cs => Ok cs
  | _ => Raise (TypeError "color_discrete_sequence")
  end.

Definition cycle_color (cs : list yaml) (i : nat) : yaml :=
  nth (i mod length cs) cs YNull.

Fixpoint px_traces (data : DataFrame) (xs : column) (cs : list yaml)
    (i : nat) (names : list string) : result (list trace) :=
  match names with
  | [] => Ok []
  | n :: rest =>
      (let! ys := px_column data n in
       let! ts := px_traces data xs cs (S i) rest in
       Ok (mktrace n xs ys (cycle_color cs i) None None :: ts))%result
  end.

(** [px.line(data, x=..., y=..., template=..., color_discrete_sequence=...)]:
    one trace per [y] column, in the order given; a single column name gives
    one unnamed trace. *)
Definition px_line (data : DataFrame) (x : string) (y : y_arg)
    (template palette : yaml) : result Figure :=
  (let! xs := px_column data x in
   let! cs := palette_colors palette in
   let! traces :=
     match y with
     | YOne n =>
         let! ys := px_column data n in
         Ok [mktrace "" xs ys (cycle_color cs 0) None None]
     | YMany names => px_traces data xs cs 0 names
     end in
   Ok (mkFigure traces
         (mklayout template None None None None None None
            empty_axis empty_axis (mkhoverlabel None None None))))%result.

(** [fig.update_traces(line=dict(width=w), hovertemplate=h)] *)
Definition update_traces (f : Figure) (w : Z) (h : string) : Figure :=
  mkFigure
    (map (fun t => mktrace (tr_name t) (tr_x t) (tr_y t) (tr_line_color t)
                     (Some w) (Some h))
       (fig_data f))
    (fig_layout f).

(** ** [create_chart] (lines 101-160)

    Arguments are evaluated left to right, so in the single-column branch
    [numeric_cols[0]] is indexed before the theme is read.  A plotly figure
    is always truthy, so [if fig:] tests for [None]. *)

Definition create_chart (data : DataFrame) (chart_type : string)
    (theme_config : gmap string yaml) : result (option Figure) :=
  (let numeric_cols := select_numeric_columns data in
   let! fig :=
     if String.eqb chart_type "line" then
       if (1 <? length numeric_cols)%nat then
         let! template := dict_getitem theme_config "plotly_template" in
         let! palette := dict_getitem theme_config "color_palette" in
         let! f := px_line data "Date" (YMany numeric_cols) template palette in
         Ok (Some f)
       else
         let! y := match numeric_cols with
                   | c :: _ => Ok c
                   | [] => Raise IndexError
                   end in
         let! template := dict_getitem theme_config "plotly_template" in
         let! palette := dict_getitem theme_config "color_palette" in
         let! f := px_line data "Date" (YOne y) template palette in
         Ok (Some f)
     else Ok None in
   match fig with
   | Some f =>
       let! font := dict_getitem theme_config "font_family" in
       let! plot_bg := dict_getitem theme_config "background_color" in
       let! paper := dict_getitem theme_config "paper_color" in
       let x_axis :=
         mkaxis (Some true) (Some 1)
           (Some (dict_get theme_config "grid_color" (YStr "rgba(128, 128, 128, 0.1)")))
           (Some true) (Some 1)
           (Some (dict_get theme_config "line_color" (YStr "rgba(128, 128, 128, 0.3)")))
           (Some "%b %Y")
           (Some (dict_get theme_config "text_color" (YStr "#1f2937"))) in
       let y_axis :=
         mkaxis (Some true) (Some 1)
           (Some (dict_get theme_config "grid_color" (YStr "rgba(128, 128, 128, 0.1)")))
           (Some true) (Some 1)
           (Some (dict_get theme_config "line_color" (YStr "rgba(128, 128, 128, 0.3)")))
           (tickformat (yaxis (fig_layout f)))
           (Some (dict_get theme_config "text_color" (YStr "#1f2937"))) in
       let! hover_bg := dict_getitem theme_config "paper_color" in
       let! hover_font := dict_getitem theme_config "font_family" in
       let hover := mkhoverlabel (Some hover_bg) (Some 12) (Some hover_font) in
       let text := dict_get theme_config "text_color" (YStr "#1f2937") in
       let styled :=
         mkFigure (fig_data f)
           (mklayout (template (fig_layout f))
              (Some font) (Some text) (Some plot_bg) (Some paper)
              (Some (mkmargins 30 10 10 10)) (Some 300)
              x_axis y_axis hover) in
       Ok (Some (update_traces styled 2 "%{y:,.1f}<br>%{x|%B %Y}<extra></extra>"))
   | None => Ok None
   end)%result.

(** ** [load_themes] (lines 12-18)

    The file system is seen through the listing of the directory [themes]
    (empty when the directory is missing: [Path.glob] then yields nothing).
    [yaml.safe_load] is an interface. *)

Inductive dir_entry : Type :=
| RegularFile (text : string)
| Directory.

Class YamlLoader : Type := { safe_load : string -> result yaml }.

(** [fnmatch(name, "*.yaml")] *)
Definition matches_yaml (name : string) : bool :=
  let n := String.length name in
  (5 <=? n)%nat && String.eqb (substring (n - 5) 5 name) ".yaml".

(** Index of the last ["."] of [s], counting from [i]. *)
Fixpoint rfind_dot (s : string) (i : nat) : option nat :=
  match s with
  | EmptyString => None
  | String c s' =>
      match rfind_dot s' (S i) with
      | Some j => Some j
      | None => if Ascii.eqb c "." then Some i else None
      end
  end.

(** [PurePath.stem]: the name without its last suffix; a leading or a
    trailing dot starts no suffix. *)
Definition stem (name : string) : string :=
  match rfind_dot name 0 with
  | Some i =>
      if (0 <? i)%nat && (i <? String.length name - 1)%nat
      then substring 0 i name
      else name
  | None => name
  end.

Definition glob_yaml (listing : list (string * dir_entry)) : list (string * dir_entry) :=
  filter (fun ne => matches_yaml (fst ne)) listing.

(** [open(theme_file, "r")] followed by reading it *)
Definition open_read (name : string) (e : dir_entry) : result string :=
  match e with
  | RegularFile text => Ok text
  | Directory => Raise (OSError name)
  end.

Section LoadThemes.
Context {L : YamlLoader}.

Fixpoint load_loop (files : list (string * dir_entry)) (themes : gmap string yaml)
  : result (gmap string yaml) :=
  match files with
  | [] => Ok themes
  | (name, e) :: rest =>
      (let! text := open_read name e in
       let! doc := safe_load text in
       load_loop rest (<[stem name := doc]> themes))%result
  end.

Definition load_themes (listing : list (string * dir_entry)) : result (gmap string yaml) :=
  load_loop (glob_yaml listing) ∅.

End LoadThemes.

(** ** Concrete instances of the two interfaces, to run the code on inputs *)

(** A generator whose state is a counter and whose deviates walk through
    -1.5, -1, ..., 1.5. *)
Module CounterGenerator.

Definition deviate (s : Z) : float :=
  (float_of_int (s mod 7 - 3) * 0.5)%float.

#[export] Instance generator : Generator :=
  {| rng := Z; gauss := fun s => (deviate s, s + 1) |}.

Definition fresh : np_world := mkworld (0 : Z) [].

End CounterGenerator.

(** A loader for the fragment of YAML that theme files are written in: one
    [key: value] per line, a value being a double-quoted string without
    escapes or a flow sequence of such strings.  Anything else is rejected. *)
Module FlatYaml.

Definition dq : ascii := "034"%char.
Definition lf : ascii := "010"%char.

(** [quoted s] is [s] between double quotes. *)
Definition quoted (s : string) : string := String dq (s +:+ String dq EmptyString).

Fixpoint split_lines (s : string) : list string :=
  match s with
  | EmptyString => [EmptyString]
  | String c s' =>
      if Ascii.eqb c lf then EmptyString :: split_lines s'
      else match split_lines s' with
           | l :: ls => String c l :: ls
           | [] => [String c EmptyString]
           end
  end.

Fixpoint skip_spaces (s : string) : string :=
  match s with
  | String c s' => if Ascii.eqb c " " then skip_spaces s' else s
  | EmptyString => EmptyString
  end.

Definition blank (s : string) : bool := String.eqb (skip_spaces s) EmptyString.

(** After an opening quote: the text up to the closing quote, and what
    follows it. *)
Fixpoint read_quoted (s : string) : option (string * string) :=
  match s with
  | EmptyString => None
  | String c s' =>
      if Ascii.eqb c dq then Some (EmptyString, s')
      else if Ascii.eqb c "\" then None
      else match read_quoted s' with
           | Some (x, r) => Some (String c x, r)
           | None => None
           end
  end.

(** After ["["] or [","]: the remaining items up to the closing bracket. *)
Fixpoint read_items (fuel : nat) (s : string) : option (list yaml) :=
  match fuel with
  | O => None
  | S fuel' =>
      match skip_spaces s with
      | String c s1 =>
          if Ascii.eqb c dq then
            match read_quoted s1 with
            | Some (x, r) =>
                match skip_spaces r with
                | String d r' =>
                    if Ascii.eqb d "," then
                      match read_items fuel' r' with
                      | Some xs => Some (YStr x :: xs)
                      | None => None
                      end
                    else if Ascii.eqb d "]" then
                      (if blank r' then Some [YStr x] else None)
                    else None
                | EmptyString => None
                end
            | None => None
            end
          else None
      | EmptyString => None
      end
  end.

Definition read_value (s : string) : option yaml :=
  match skip_spaces s with
  | String c r =>
      if Ascii.eqb c dq then
        match read_quoted r with
        | Some (x, rest) => if blank rest then Some (YStr x) else None
        | None => None
        end
      else if Ascii.eqb c "[" then
        match skip_spaces r with
        | String d r' =>
            if Ascii.eqb d "]" then (if blank r' then Some (YSeq []) else None)
            else option_map YSeq (read_items (String.length r) r)
        | EmptyString => None
        end
      else None
  | EmptyString => None
  end.

(** The key before the first colon, and the text after it. *)
Fixpoint read_key (s : string) : option (string * string) :=
  match s with
  | EmptyString => None
  | String c s' =>
      if Ascii.eqb c ":" then Some (EmptyString, s')
      else if Ascii.eqb c " " || Ascii.eqb c dq then None
      else match read_key s' with
           | Some (k, r) => Some (String c k, r)
           | None => None
           end
  end.

Fixpoint read_lines (ls : list string) (acc : gmap string yaml)
  : option (gmap string yaml) :=
  match ls with
  | [] => Some acc
  | l :: ls' =>
      if blank l then read_lines ls' acc
      else match read_key l with
           | Some (String c k, r) =>
               match read_value r with
               | Some v => read_lines ls' (<[String c k := v]> acc)
               | None => None
               end
           | _ => None
           end
  end.

Definition load (text : string) : result yaml :=
  let ls := split_lines text in
  if forallb blank ls then Ok YNull
  else match read_lines ls ∅ with
       | Some m => Ok (YMap m)
       | None => Raise YAMLError
       end.

#[export] Instance loader : YamlLoader := {| safe_load := load |}.

(** The four-line theme file of the round-trip scenario. *)
Definition dark_text : string :=
  "plotly_template: " +:+ quoted "plotly_dark" +:+ String lf
  ("color_palette: [" +:+ quoted "#111" +:+ "," +:+ quoted "#222" +:+ "]" +:+ String lf
  ("font_family: " +:+ quoted "Arial" +:+ String lf
  ("paper_color: " +:+ quoted "#000" +:+ String lf EmptyString))).

Definition dark_theme : gmap string yaml :=
  <["plotly_template" := YStr "plotly_dark"]>
  (<["color_palette" := YSeq [YStr "#111"; YStr "#222"]]>
  (<["font_family" := YStr "Arial"]>
  (<["paper_color" := YStr "#000"]> ∅))).

End FlatYaml.

(** ** Vocabulary of the statements below *)

(** The timestamp axis [get_mock_data] builds. *)
Definition mock_dates : list date :=
  date_range_M (mkdate 2020 1 1) (mkdate 2023 12 31).

Definition series_names : list string :=
  ["Employment Trends"; "Unemployment Rate"; "GDP Growth"; "CPI Trends";
   "Wage Growth"; "Housing Prices"; "Interest Rates"; "Trade Balance";
   "Business Confidence"; "Retail Sales"; "Manufacturing Index";
   "Consumer Confidence"].

(** [datasets[series][col]] *)
Definition series_column (ds : collection) (series col : string) : option column :=
  match assoc series ds with
  | Some df => df_get df col
  | None => None
  end.

(** A table whose [Date] column is the shared axis and whose columns all
    have one value per timestamp. *)
Definition table_on_mock_dates (df : DataFrame) : Prop :=
  df_get df "Date" = Some (ColDatetime mock_dates)
  /\ Forall (fun kc => column_length (snd kc) = 48%nat) (df_columns df).

Section Deviates.
Context {G : Generator}.

(** The next [n] deviates of the generator, and its state after them. *)
Definition deviates (n : nat) (s : rng) : list float := fst (gauss_n n s).
Definition advance (n : nat) (s : rng) : rng := snd (gauss_n n s).

(** The region's unemployment and housing parameters: the third call of
    [np.random.normal] is [(center, 0.5, 48)] and its samples, the deviates
    number 96 to 143 scaled by 0.5 around [center], are the [Rate] column;
    the seventh call is [(5000, 1000, 48)] and the running sum of its
    samples, shifted by [house_base], is the [Median Price] column. *)
Definition region_parameters (region : string) (center house_base : float) : Prop :=
  forall w : np_world,
  exists (ds : collection) (w' : np_world) (calls : list normal_call),
    get_mock_data region w = (Ok ds, w')
    /\ np_calls w' = (np_calls w ++ calls)%list
    /\ calls !! 2%nat = Some (mkcall center 0.5 48)
    /\ series_column ds "Unemployment Rate" "Rate"
       = Some (ColFloat (map (fun z => center + 0.5 * z)%float
                           (deviates 48 (advance 96 (np_state w)))))
    /\ calls !! 6%nat = Some (mkcall 5000 1000 48)
    /\ series_column ds "Housing Prices" "Median Price"
       = Some (ColFloat
                 (arr_add
                    (np_cumsum (map (fun z => 5000 + 1000 * z)%float
                                  (deviates 48 (advance 288 (np_state w)))))
                    house_base)).

End Deviates.

(** The numeric columns of a table, with their values, in column order. *)
Definition numeric_columns (df : DataFrame) : list (string * column) :=
  filter (fun kc => is_numeric (snd kc)) (df_columns df).


(** The traces of a wide-form [px.line]: column [i] gets colour [i]. *)
Fixpoint wide_traces (xs : column) (cs : list yaml) (i : nat)
    (cols : list (string * column)) : list trace :=
  match cols with
  | [] => []
  | (n, ys) :: rest =>
      mktrace n xs ys (cycle_color cs i) None None :: wide_traces xs cs (S i) rest
  end.

(** Inputs on which the line branch of [create_chart] raises nothing: a
    table with distinct column names, a non-numeric [Date] column [xs] and
    at least one numeric column, and a theme with the five keys that are
    read with [theme_config[...]], the palette being a non-empty sequence. *)
Record chart_inputs (data : DataFrame) (theme : gmap string yaml)
    (xs : column) (palette : list yaml) : Prop := {
  distinct_names : NoDup (map fst (df_columns data));
  date_column : df_get data "Date" = Some xs;
  date_not_numeric : is_numeric xs = false;
  some_numeric : numeric_columns data <> [];
  has_template : is_Some (theme !! "plotly_template");
  has_palette : theme !! "color_palette" = Some (YSeq palette);
  palette_nonempty : palette <> [];
  has_font : is_Some (theme !! "font_family");
  has_background : is_Some (theme !! "background_color");
  has_paper : is_Some (theme !! "paper_color")
}.

(** A theme file that can be opened and parsed. *)
Definition parses {L : YamlLoader} (file : string * dir_entry) : Prop :=
  exists text doc, snd file = RegularFile text /\ safe_load text = Ok doc.

(** Small concrete inputs. *)
Module Fixtures.

(** The round-trip theme plus the one required key it lacks. *)
Definition minimal_theme : gmap string yaml :=
  <["background_color" := YStr "#111111"]> FlatYaml.dark_theme.

Definition two_dates : list date := [mkdate 2020 1 31; mkdate 2020 2 29].

Definition rate_table : DataFrame :=
  mkDataFrame [("Date", ColDatetime two_dates);
               ("Rate", ColFloat [5.5; 6.25]%float)].

Definition employment_table : DataFrame :=
  mkDataFrame [("Date", ColDatetime two_dates);
               ("Full Time", ColFloat [150000; 151000]%float);
               ("Part Time", ColFloat [90000; 89000]%float)].

Definition dates_only_table : DataFrame :=
  mkDataFrame [("Date", ColDatetime two_dates)].

Definition theme_dir : list (string * dir_entry) :=
  [("dark.yaml", RegularFile FlatYaml.dark_text); ("notes.txt", Directory)].

Definition empty_session : session (G := CounterGenerator.generator) :=
  mksession CounterGenerator.fresh ∅.

End Fixtures.

(** The column names of the twelve tables. *)
Definition mock_schema : list (string * list string) :=
  [("Employment Trends", ["Date"; "Full Time"; "Part Time"]);
   ("Unemployment Rate", ["Date"; "Rate"]);
   ("GDP Growth", ["Date"; "GDP"]);
   ("CPI Trends", ["Date"; "CPI"]);
   ("Wage Growth", ["Date"; "Wages"]);
   ("Housing Prices", ["Date"; "Median Price"]);
   ("Interest Rates", ["Date"; "Rate"]);
   ("Trade Balance", ["Date"; "Exports"; "Imports"]);
   ("Business Confidence", ["Date"; "Index"]);
   ("Retail Sales", ["Date"; "Sales"]);
   ("Manufacturing Index", ["Date"; "Index"]);
   ("Consumer Confidence", ["Date"; "Index"])].

Definition schema_of (ds : collection) : list (string * list string) :=
  map (fun kd => (fst kd, map fst (df_columns (snd kd)))) ds.

(** A table made of the shared [Date] axis followed by one or two float
    columns of 48 values. *)
Definition series_table (df : DataFrame) : Prop :=
  exists rest,
    df_columns df = ("Date", ColDatetime mock_dates) :: rest
    /\ (length rest = 1 \/ length rest = 2)%nat
    /\ Forall (fun kc => exists v, snd kc = ColFloat v /\ length v = 48%nat) rest
    /\ NoDup (map fst (df_columns df)).

(** A theme with the five keys [create_chart] subscripts, the palette being
    a non-empty sequence. *)
Definition complete_theme (theme : gmap string yaml) : Prop :=
  is_Some (theme !! "plotly_template")
  /\ (exists c cs, theme !! "color_palette" = Some (YSeq (c :: cs)))
  /\ is_Some (theme !! "font_family")
  /\ is_Some (theme !! "background_color")
  /\ is_Some (theme !! "paper_color").

(** ** Streamlit: the page one run of the script builds

    Every [st.*] call appends an element to the container that is active
    when it is called ([with cols[j]:], [with tab:], [st.sidebar]).  A widget
    that is given a [key] registers it, and a key registered twice in one
    run is an error.  What the viewer has selected in a select box is an
    interface; the order of its options is not modelled. *)

Inductive place : Type :=
| InSidebar
| InTab (k : nat)
| InColumn (j : nat).

Inductive element : Type :=
| Title (text : string)
| Markdown (body : string) (unsafe_allow_html : bool)
| Selectbox (label : string) (options : gset string)
| Tabs (labels : list string)
| Columns (n : nat) (gap : string)
| Subheader (text : string)
| PlotlyChart (fig : option Figure) (use_container_width display_mode_bar : bool)
| Button (label key : string).

(** The active containers, innermost first, and the page so far. *)
Record ui_state : Type := mkui {
  context : list place;
  shown : list (list place * element);
  widget_keys : gset string
}.

Definition fresh_page : ui_state := mkui [] [] ∅.

Inductive app_exn : Type :=
| PythonError (e : exn)
| DuplicateWidgetID (key : string)
| ThemeKeyError (selected : option string).

Inductive outcome (A : Type) : Type :=
| Done (a : A)
| Failed (e : app_exn).
Arguments Done {A} a.
Arguments Failed {A} e.

Class Viewer : Type := {
  selectbox_choice : string -> gset string -> option string;
  selectbox_choice_in label options x :
    selectbox_choice label options = Some x -> x ∈ options;
  selectbox_choice_none label options :
    selectbox_choice label options = None -> options = ∅
}.

Definition double_quote : ascii := "034"%char.

(** The style sheet passed to [st.markdown] (lines 167-201). *)
Definition page_css : string :=
  "
        <style>
        .stButton > button {
            background-color: #2E86AB;
            color: white;
            border: none;
            padding: 8px 16px;
            border-radius: 4px;
            float: right;
            margin-top: -10px;
        }
        [data-testid=" +:+ String double_quote
  ("stHorizontalBlock" +:+ String double_quote
  ("] {
            gap: 1rem;
            padding: 0.5rem;
        }
        [data-testid=" +:+ String double_quote
  ("column" +:+ String double_quote
  ("] {
            background-color: #f0f7ff;  /* Light blue background */
            padding: 1.5rem;
            border-radius: 8px;
            box-shadow: rgba(59, 130, 246, 0.1) 0px 4px 12px, rgba(59, 130, 246, 0.05) 0px 1px 3px;  /* Blue-tinted shadow */
            border: 1px solid rgba(59, 130, 246, 0.1);  /* Subtle blue border */
            margin: 0 0 1rem 0 !important;
            min-width: calc(33.33% - 1.33rem) !important;
        }
        .element-container {
            margin-bottom: 1rem;
        }
        .stPlotlyChart {
            margin-bottom: 1rem;
        }
        h3 {
            margin-bottom: 1.5rem;
        }
        </style>
    ")))).

Section App.
Context {G : Generator} {L : YamlLoader} {V : Viewer}.

(** What a run acts on: the process (generator, cache) and the page. *)
Record app_state : Type := mkapp { process : session; page : ui_state }.

Definition app (A : Type) : Type := app_state -> outcome A * app_state.

Definition app_ret {A} (a : A) : app A := fun st => (Done a, st).

Definition app_bind {A B} (m : app A) (k : A -> app B) : app B :=
  fun st =>
    match m st with
    | (Done a, st') => k a st'
    | (Failed e, st') => (Failed e, st')
    end.

Definition app_fail {A} (e : app_exn) : app A := fun st => (Failed e, st).

(** A Python computation that touches neither the process nor the page. *)
Definition app_py {A} (r : result A) : app A :=
  match r with
  | Ok a => app_ret a
  | Raise e => app_fail (PythonError e)
  end.

(** A call of the memoised [get_mock_data]. *)
Definition app_cached (region : string) : app collection :=
  fun st =>
    match cached_get_mock_data region (process st) with
    | (Ok ds, ss) => (Done ds, mkapp ss (page st))
    | (Raise e, ss) => (Failed (PythonError e), mkapp ss (page st))
    end.

Definition emit_in (ctx : list place) (e : element) : app unit :=
  fun st =>
    (Done tt,
     mkapp (process st)
       (mkui (context (page st)) (shown (page st) ++ [(ctx, e)])
          (widget_keys (page st)))).

Definition emit (e : element) : app unit :=
  fun st => emit_in (context (page st)) e st.

(** [with container: body] *)
Definition with_place {A} (p : place) (body : app A) : app A :=
  fun st =>
    let ctx := context (page st) in
    let '(r, st') :=
      body (mkapp (process st)
              (mkui (p :: ctx) (shown (page st)) (widget_keys (page st)))) in
    (r, mkapp (process st')
          (mkui ctx (shown (page st')) (widget_keys (page st')))).

Definition st_title (text : string) : app unit := emit (Title text).
Definition st_markdown (body : string) (unsafe_allow_html : bool) : app unit :=
  emit (Markdown body unsafe_allow_html).
Definition st_subheader (text : string) : app unit := emit (Subheader text).
Definition st_columns (n : nat) (gap : string) : app unit := emit (Columns n gap).
Definition st_tabs (labels : list string) : app unit := emit (Tabs labels).
Definition st_plotly_chart (fig : option Figure)
    (use_container_width display_mode_bar : bool) : app unit :=
  emit (PlotlyChart fig use_container_width display_mode_bar).

(** [st.button(label, key=key)] *)
Definition st_button (label key : string) : app unit :=
  fun st =>
    if decide (key ∈ widget_keys (page st)) then (Failed (DuplicateWidgetID key), st)
    else
      (Done tt,
       mkapp (process st)
         (mkui (context (page st))
            (shown (page st) ++ [(context (page st), Button label key)])
            ({[key]} ∪ widget_keys (page st)))).

(** [st.sidebar.selectbox(label, options)] *)
Definition st_sidebar_selectbox (label : string) (options : gset string)
  : app (option string) :=
  app_bind (emit_in [InSidebar] (Selectbox label options))
    (fun _ => app_ret (selectbox_choice label options)).

Fixpoint for_each {A} (l : list A) (body : A -> app unit) : app unit :=
  match l with
  | [] => app_ret tt
  | x :: rest => app_bind (body x) (fun _ => for_each rest body)
  end.

(** [range(start, stop, step)] for a positive [step]. *)
Fixpoint range_from (fuel start stop step : nat) : list nat :=
  match fuel with
  | O => []
  | S fuel' =>
      if (start <? stop)%nat then start :: range_from fuel' (start + step) stop step
      else []
  end.

Definition py_range (start stop step : nat) : list nat :=
  range_from stop start stop step.

(** ** [display_charts] (lines 224-238)

    The bodies of the two loops come first: one panel (the body of
    [for j in range(3)]), one row (the body of
    [for i in range(0, len(data_collections), 3)]). *)

Definition display_panel (data_collections : collection)
    (theme_config : gmap string yaml) (region_prefix : string) (i j : nat)
  : app unit :=
  if (i + j <? length data_collections)%nat then
    app_bind
      (match data_collections !! (i + j)%nat with
       | Some item => app_ret item
       | None => app_fail (PythonError IndexError)
       end)
      (fun item =>
         let '(title, data) := item in
         with_place (InColumn j)
           (app_bind (st_subheader title) (fun _ =>
            app_bind (app_py (create_chart data "line" theme_config)) (fun fig =>
            app_bind (st_plotly_chart fig true false) (fun _ =>
            st_button "Purchase"
              (region_prefix +:+ "_btn_" +:+ pretty (i + j)%nat))))))
  else app_ret tt.

Definition display_row (data_collections : collection)
    (theme_config : gmap string yaml) (region_prefix : string) (i : nat)
  : app unit :=
  app_bind (st_columns 3 "large") (fun _ =>
  for_each (py_range 0 3 1)
    (display_panel data_collections theme_config region_prefix i)).

Definition display_charts (data_collections : collection)
    (theme_config : gmap string yaml) (region_prefix : string) : app unit :=
  for_each (py_range 0 (length data_collections) 3)
    (display_row data_collections theme_config region_prefix).

(** ** [main] (lines 163-222)

    [themes[selected_theme]] raises [KeyError] when nothing is selected.
    [display_charts] is typed for a theme that is a mapping, as
    [create_chart] is; a theme document of another shape is stopped at the
    call with the [TypeError] its first subscript would raise. *)

Definition themes_getitem (themes : gmap string yaml) (selected : option string)
  : app (gmap string yaml) :=
  match selected with
  | Some name =>
      match themes !! name with
      | Some (YMap theme) => app_ret theme
      | Some _ => app_fail (PythonError (TypeError "theme_config"))
      | None => app_fail (ThemeKeyError selected)
      end
  | None => app_fail (ThemeKeyError None)
  end.

Definition region_tab (k : nat) (heading region : string)
    (themes : gmap string yaml) (selected_theme : option string) : app unit :=
  with_place (InTab k)
    (app_bind (st_markdown heading false) (fun _ =>
     app_bind (app_cached region) (fun data_collections =>
     app_bind (themes_getitem themes selected_theme) (fun theme =>
     display_charts data_collections theme region)))).

Definition main (listing : list (string * dir_entry)) : app unit :=
  app_bind (st_title "Economic Data Visualization Gallery") (fun _ =>
  app_bind (st_markdown page_css true) (fun _ =>
  app_bind (app_py (load_themes listing)) (fun themes =>
  app_bind (st_sidebar_selectbox "Select Theme" (dom themes)) (fun selected_theme =>
  app_bind (st_tabs ["US Data"; "AUS Data"; "EU Data"]) (fun _ =>
  app_bind (region_tab 0 "### US Data" "us" themes selected_theme) (fun _ =>
  app_bind (region_tab 1 "### AUS Data" "aus" themes selected_theme) (fun _ =>
  region_tab 2 "### EU Data" "eu" themes selected_theme))))))).

(** One run of the script in a process: the page starts empty. *)
Definition run_script (listing : list (string * dir_entry)) (ss : session)
  : outcome unit * app_state :=
  main listing (mkapp ss fresh_page).

(** *** Vocabulary for the page *)

(** The widget key of panel [k]: [f"{region_prefix}_btn_{k}"]. *)
Definition button_key (prefix : string) (k : nat) : string :=
  prefix +:+ "_btn_" +:+ pretty k.

Definition button_keys (prefix : string) (n : nat) : gset string :=
  list_to_set (map (button_key prefix) (seq 0 n)).

(** Panel [k] sits in column [k mod 3]: caption, chart, button. *)
Definition panel_events (ctx : list place) (prefix : string) (k : nat)
    (title : string) (fig : Figure) : list (list place * element) :=
  [(InColumn (k mod 3) :: ctx, Subheader title);
   (InColumn (k mod 3) :: ctx, PlotlyChart (Some fig) true false);
   (InColumn (k mod 3) :: ctx, Button "Purchase" (button_key prefix k))].

(** The grid of the panels numbered from [k] on: a new row of three columns
    before every third panel. *)
Fixpoint grid_events (ctx : list place) (prefix : string) (k : nat)
    (panels : list (string * Figure)) : list (list place * element) :=
  match panels with
  | [] => []
  | (title, fig) :: rest =>
      (if (k mod 3 =? 0)%nat then [(ctx, Columns 3 "large")] else [])
      ++ panel_events ctx prefix k title fig
      ++ grid_events ctx prefix (S k) rest
  end.

(** The state after more elements were shown and more keys registered. *)
Definition render (events : list (list place * element)) (keys : gset string)
    (st : app_state) : app_state :=
  mkapp (process st)
    (mkui (context (page st)) (shown (page st) ++ events)
       (keys ∪ widget_keys (page st))).

(** The state inside [with container:]. *)
Definition enter (p : place) (st : app_state) : app_state :=
  mkapp (process st)
    (mkui (p :: context (page st)) (shown (page st)) (widget_keys (page st))).

(** Captions paired with the charts drawn for them. *)
Definition panels_of (ds : collection) (figs : list Figure) : list (string * Figure) :=
  zip (map fst ds) figs.

(** What panel [k] adds to the page and to the keys, if there is one. *)
Definition slot_events (prefix : string) (panels : list (string * Figure))
    (ctx : list place) (k : nat) : list (list place * element) :=
  match panels !! k with
  | Some (title, fig) => panel_events ctx prefix k title fig
  | None => []
  end.

Definition slot_keys (prefix : string) (n k : nat) : gset string :=
  if (k <? n)%nat then {[button_key prefix k]} else ∅.

Definition keys_from (prefix : string) (n i : nat) : gset string :=
  list_to_set (map (button_key prefix) (seq i (n - i))).

(** The elements [display_charts] puts on a page: rows of three columns,
    captions, charts that have a figure, buttons. *)
Definition grid_element (e : element) : Prop :=
  match e with
  | Columns n gap => n = 3%nat /\ gap = "large"
  | Subheader _ => True
  | PlotlyChart fig _ _ => is_Some fig
  | Button label _ => label = "Purchase"
  | _ => False
  end.

(** The ways [display_charts] can fail: [create_chart] raised on one of the
    tables, or a button key was already registered. *)
Definition chart_failure (ds : collection) (theme : gmap string yaml)
    (prefix : string) (e : app_exn) : Prop :=
  match e with
  | PythonError err =>
      exists k title data,
        ds !! k = Some (title, data)
        /\ create_chart data "line" theme = Raise err
  | DuplicateWidgetID key =>
      exists k, (k < length ds)%nat /\ key = button_key prefix k
  | ThemeKeyError _ => False
  end.

(** [out] is an outcome of rendering panels from [st]: the process and the
    active container are those of [st], keys were only added, the page grew
    by grid elements, and a failure is a [chart_failure]. *)
Definition grid_outcome (ds : collection) (theme : gmap string yaml)
    (prefix : string) (st : app_state) (out : outcome unit * app_state) : Prop :=
  process (snd out) = process st
  /\ context (page (snd out)) = context (page st)
  /\ widget_keys (page st) ⊆ widget_keys (page (snd out))
  /\ (exists new,
        shown (page (snd out)) = (shown (page st) ++ new)%list
        /\ Forall (fun ce => grid_element (snd ce)) new)
  /\ match fst out with
     | Done _ => True
     | Failed e => chart_failure ds theme prefix e
     end.

(** A collection shaped like the ones [get_mock_data] returns, and a cache
    that holds only such collections. *)
Definition mock_collection (ds : collection) : Prop :=
  schema_of ds = mock_schema /\ Forall (fun kd => series_table (snd kd)) ds.

Definition mock_cache (ss : session) : Prop :=
  forall region ds, cache ss !! region = Some ds -> mock_collection ds.

(** What one region tab shows: its heading, then the grid. *)
Definition tab_events (k : nat) (heading prefix : string) (ds : collection)
    (figs : list Figure) : list (list place * element) :=
  ([InTab k], Markdown heading false)
  :: grid_events [InTab k] prefix 0 (panels_of ds figs).

(** What [main] shows before the tabs are filled. *)
Definition page_header (options : gset string) : list (list place * element) :=
  [([], Title "Economic Data Visualization Gallery");
   ([], Markdown page_css true);
   ([InSidebar], Selectbox "Select Theme" options);
   ([], Tabs ["US Data"; "AUS Data"; "EU Data"])].

End App.

(** The underscores of a string, counted; a decimal numeral has none. *)
Fixpoint underscores (s : string) : nat :=
  match s with
  | EmptyString => 0
  | String c s' => (if Ascii.eqb c "_" then 1 else 0) + underscores s'
  end.

(** The regions [main] shows, and a cache that holds them all. *)
Definition gallery_regions : list string := ["us"; "aus"; "eu"].

Definition gallery_cached {G : Generator} (ss : session) : Prop :=
  forall region, region ∈ gallery_regions -> is_Some (cache ss !! region).

(** ** Concrete inputs for the page *)

(** A viewer who leaves every select box on the first option it lists. *)
Module FirstOption.

Definition choice (label : string) (options : gset string) : option string :=
  head (elements options).

#[export] Instance viewer : Viewer := {|
  selectbox_choice := choice;
  selectbox_choice_in := fun label options x H =>
    proj1 (elem_of_elements options x) (head_Some_elem_of (elements options) x H);
  selectbox_choice_none := fun label options H =>
    leibniz_equiv _ _ (elements_empty_inv options (proj1 (head_None (elements options)) H))
|}.

End FirstOption.

Module Gallery.

(** A theme file with the five required keys. *)
Definition complete_text : string :=
  "background_color: " +:+ FlatYaml.quoted "#111111" +:+ String FlatYaml.lf
  FlatYaml.dark_text.

Definition themes_dir : list (string * dir_entry) :=
  [("dark.yaml", RegularFile complete_text); ("README.md", RegularFile "themes")].

Definition no_themes_dir : list (string * dir_entry) :=
  [("README.md", RegularFile "themes"); ("dark.yml", RegularFile complete_text)].

Definition broken_dir : list (string * dir_entry) :=
  [("dark.yaml", RegularFile complete_text); ("light.yaml", Directory);
   ("night.yaml", RegularFile complete_text)].

(** Two files with one stem. *)
Definition colliding_dir : list (string * dir_entry) :=
  [(".yaml", RegularFile FlatYaml.dark_text);
   (".yaml.yaml", RegularFile complete_text)].

Definition two_tables : collection :=
  [("Unemployment Rate", Fixtures.rate_table);
   ("Employment Trends", Fixtures.employment_table)].


End Gallery.

(** * Properties *)

(** ** The code on concrete inputs *)

Example flat_yaml_dark :
  FlatYaml.load FlatYaml.dark_text = Ok (YMap FlatYaml.dark_theme).
Proof. vm_compute. reflexivity. Qed.

Example load_dark :
  load_themes (L := FlatYaml.loader) Fixtures.theme_dir
  = Ok (<["dark" := YMap FlatYaml.dark_theme]> ∅).
Proof. vm_compute. reflexivity. Qed.

Example stem_examples :
  stem "dark.yaml" = "dark" /\ stem ".yaml" = ".yaml" /\ stem "a.b.yaml" = "a.b"
  /\ stem ".yaml.yaml" = ".yaml".
Proof. repeat split. Qed.

Example mock_dates_ends :
  mock_dates !! 0%nat = Some (mkdate 2020 1 31)
  /\ mock_dates !! 1%nat = Some (mkdate 2020 2 29)
  /\ mock_dates !! 47%nat = Some (mkdate 2023 12 31).
Proof. repeat split. Qed.

Example us_rate_on_counter_generator :
  match get_mock_data (G := CounterGenerator.generator) "us" CounterGenerator.fresh with
  | (Ok ds, _) =>
      match series_column ds "Unemployment Rate" "Rate" with
      | Some (ColFloat v) => take 3 v
      | _ => []
      end
  | _ => []
  end = [6; 6.25; 4.75]%float.
Proof. vm_compute. reflexivity. Qed.

Example chart_without_background_color :
  create_chart Fixtures.rate_table "line" FlatYaml.dark_theme
  = Raise (KeyError "background_color").
Proof. vm_compute. reflexivity. Qed.

Example chart_of_unknown_kind :
  create_chart Fixtures.rate_table "bar" ∅ = Ok None.
Proof. reflexivity. Qed.

(** ** The generator and the array helpers *)

Section GeneratorFacts.
Context {G : Generator}.

Lemma gauss_n_length n s : length (fst (gauss_n n s)) = n.
Proof.
  revert s; induction n as [|n IH]; intros s; simpl; [reflexivity|].
  destruct (gauss s) as [z s1]. specialize (IH s1).
  destruct (gauss_n n s1) as [zs s2]. simpl in *. now rewrite IH.
Qed.

Lemma deviates_length n s : length (deviates n s) = n.
Proof. apply gauss_n_length. Qed.

Lemma advance_add a b s : advance b (advance a s) = advance (a + b) s.
Proof.
  unfold advance. revert s; induction a as [|a IH]; intros s; simpl; [reflexivity|].
  destruct (gauss s) as [z s1]. specialize (IH s1).
  destruct (gauss_n a s1) as [zs s2]. simpl in *. rewrite IH.
  destruct (gauss_n (a + b) s1); reflexivity.
Qed.

Lemma np_random_normal_run loc scale n w :
  (scale <? 0)%float = false ->
  np_random_normal loc scale n w
  = (Ok (map (fun z => (loc + scale * z)%float) (deviates n (np_state w))),
     mkworld (advance n (np_state w)) (np_calls w ++ [mkcall loc scale n])).
Proof.
  intros H. unfold np_random_normal, deviates, advance. rewrite H.
  destruct (gauss_n n (np_state w)); reflexivity.
Qed.

Lemma np_random_normal_negative_scale loc scale n w :
  (scale <? 0)%float = true ->
  np_random_normal loc scale n w = (Raise (ValueError "scale < 0"), w).
Proof. intros H. unfold np_random_normal. now rewrite H. Qed.

Lemma bind_normal {B} loc scale n (k : list float -> py B) s c :
  (scale <? 0)%float = false ->
  bind (np_random_normal loc scale n) k (mkworld s c)
  = k (map (fun z => (loc + scale * z)%float) (deviates n s))
      (mkworld (advance n s) (c ++ [mkcall loc scale n])).
Proof. intros H. unfold bind. now rewrite np_random_normal_run. Qed.

Lemma bind_lift_ok {A B} (r : result A) (a : A) (k : A -> py B) w :
  r = Ok a -> bind (lift r) k w = k a w.
Proof. intros ->. reflexivity. Qed.

End GeneratorFacts.

Lemma pd_DataFrame_uniform cols n :
  Forall (fun kc => column_length (snd kc) = n) cols ->
  pd_DataFrame cols = Ok (mkDataFrame cols).
Proof.
  intros H. destruct cols as [|[k c] rest]; [reflexivity|].
  unfold pd_DataFrame. apply Forall_cons_1 in H as [Hc Hrest]. simpl in Hc.
  replace (forallb _ rest) with true; [reflexivity|].
  symmetry. apply forallb_forall. intros x Hx.
  rewrite Forall_forall in Hrest. apply Nat.eqb_eq.
  rewrite Hc. apply Hrest. now apply list_elem_of_In.
Qed.

Lemma pd_DataFrame_ragged k c k' c' :
  column_length c' <> column_length c ->
  pd_DataFrame [(k, c); (k', c')]
  = Raise (ValueError "All arrays must be of the same length").
Proof.
  intros H. apply Nat.eqb_neq in H. unfold pd_DataFrame. cbn. now rewrite H.
Qed.

Lemma cumsum_from_length acc l : length (cumsum_from acc l) = length l.
Proof. revert acc; induction l; intros; simpl; [|rewrite IHl]; reflexivity. Qed.

Lemma np_cumsum_length l : length (np_cumsum l) = length l.
Proof. destruct l; simpl; [|rewrite cumsum_from_length]; reflexivity. Qed.

Lemma arr_add_length l c : length (arr_add l c) = length l.
Proof. apply length_map. Qed.

Lemma arr_mul_length l c : length (arr_mul l c) = length l.
Proof. apply length_map. Qed.

Lemma mock_dates_length : length mock_dates = 48%nat.
Proof. reflexivity. Qed.

Lemma mock_dates_months : mock_dates = map month_end (seqZ (12 * 2020) 48).
Proof. vm_compute. reflexivity. Qed.

(** ** Running [get_mock_data]

    The body is straight-line code: fourteen draws, twelve tables.  The
    tactics below execute it one statement at a time, for an arbitrary
    generator. *)

Ltac uniform_columns :=
  repeat first
    [ apply Forall_nil_2
    | apply Forall_cons_2;
      [ cbn [snd column_length];
        rewrite ?arr_add_length, ?arr_mul_length, ?np_cumsum_length,
                ?length_map, ?deviates_length; reflexivity | ] ].

Ltac run_step :=
  lazymatch goal with
  | |- context [bind (np_random_normal ?l ?s ?n) ?k (mkworld ?st ?c)] =>
      rewrite (bind_normal l s n k st c) by (vm_compute; reflexivity); cbv beta
  | |- context [bind (lift (pd_DataFrame ?cols)) ?k ?w] =>
      rewrite (bind_lift_ok (pd_DataFrame cols) (mkDataFrame cols) k w)
        by (apply (pd_DataFrame_uniform cols 48); uniform_columns);
      cbv beta
  end.

Ltac run_mock :=
  change (date_range_M _ _) with mock_dates;
  rewrite mock_dates_length;
  cbv iota beta zeta;
  repeat run_step;
  unfold ret; rewrite !advance_add; rewrite <- !app_assoc; cbn [app Nat.add].

Ltac case_region region :=
  destruct (String.eqb region "us") eqn:?;
  [ | destruct (String.eqb region "aus") eqn:? ].

Section MockDataFacts.
Context {G : Generator}.

(** The whole run, for any region and any generator state: no statement
    raises, 672 deviates are consumed by 14 calls, and the tables are as
    the source builds them. *)
Lemma get_mock_data_run (region : string) (s : rng) (c : list normal_call) :
  exists (ds : collection) (calls : list normal_call),
    get_mock_data region (mkworld s c)
    = (Ok ds, mkworld (advance 672 s) (c ++ calls)%list)
    /\ length calls = 14%nat
    /\ map fst ds = series_names
    /\ Forall (fun kd => table_on_mock_dates (snd kd)) ds
    /\ calls !! 2%nat
       = Some (mkcall (if String.eqb region "us" then 5.5
                       else if String.eqb region "aus" then 4.5 else 6.5) 0.5 48)
    /\ series_column ds "Unemployment Rate" "Rate"
       = Some (ColFloat
                 (map (fun z => (if String.eqb region "us" then 5.5
                                 else if String.eqb region "aus" then 4.5 else 6.5)
                                + 0.5 * z)%float
                    (deviates 48 (advance 96 s))))
    /\ calls !! 6%nat = Some (mkcall 5000 1000 48)
    /\ series_column ds "Housing Prices" "Median Price"
       = Some (ColFloat
                 (arr_add
                    (np_cumsum (map (fun z => 5000 + 1000 * z)%float
                                  (deviates 48 (advance 288 s))))
                    (float_of_int
                       (if String.eqb region "us" then 400000
                        else if String.eqb region "aus" then 800000 else 300000)))).
Proof.
  unfold get_mock_data.
  case_region region; run_mock.
  all: eexists _, _; (split; [reflexivity|]); (split; [reflexivity|]);
    (split; [reflexivity|]).
  all: split;
    [ repeat (apply Forall_cons_2;
              [split; [reflexivity| cbn [snd df_columns]; uniform_columns] |]);
      apply Forall_nil_2 | ].
  all: repeat split; reflexivity.
Qed.

Lemma get_mock_data_returns (region : string) (w : np_world) :
  exists ds w', get_mock_data region w = (Ok ds, w').
Proof.
  destruct w as [s c].
  destruct (get_mock_data_run region s c) as (ds & calls & H & _). eauto.
Qed.

(** C1. For every region identifier (so in particular for "us", "aus" and
    "eu") [get_mock_data] returns normally with exactly twelve distinctly
    named series; every table of the collection has the same [Date] column,
    [mock_dates], and one value per timestamp in each column; and
    [mock_dates] are the 48 month ends of the consecutive months January
    2020 to December 2023. *)
Theorem get_mock_data_twelve_series_shared_axis (region : string) (w : np_world) :
  exists ds w',
    get_mock_data region w = (Ok ds, w')
    /\ length ds = 12%nat
    /\ NoDup (map fst ds)
    /\ Forall (fun kd => table_on_mock_dates (snd kd)) ds
    /\ mock_dates = map month_end (seqZ (12 * 2020) 48)
    /\ length mock_dates = 48%nat
    /\ mock_dates !! 0%nat = Some (mkdate 2020 1 31)
    /\ mock_dates !! 47%nat = Some (mkdate 2023 12 31).
Proof.
  destruct w as [s c].
  destruct (get_mock_data_run region s c) as (ds & calls & H & _ & Hn & Hd & _).
  exists ds, (mkworld (advance 672 s) (c ++ calls)%list).
  split; [exact H|]. split.
  { rewrite <- (length_map fst), Hn. reflexivity. }
  split.
  { rewrite Hn. apply (bool_decide_eq_true_1 (NoDup series_names)).
    vm_compute. reflexivity. }
  split; [exact Hd|]. split; [exact mock_dates_months|].
  repeat split.
Qed.

(** C10. For every region identifier the returned mapping has the same
    twelve series names in the same fixed order. *)
Theorem get_mock_data_series_names (region : string) (w : np_world) :
  exists ds w', get_mock_data region w = (Ok ds, w') /\ map fst ds = series_names.
Proof.
  destruct w as [s c].
  destruct (get_mock_data_run region s c) as (ds & calls & H & _ & Hn & _). eauto.
Qed.

(** C7. The unemployment-rate series is drawn around 5.5 for "us", 4.5 for
    "aus" and 6.5 for "eu", with scale 0.5 and 48 points, and the housing
    series is a running sum of N(5000, 1000) steps on the base 400000,
    800000 and 300000 respectively. *)
Theorem get_mock_data_region_parameters :
  region_parameters "us" 5.5 400000
  /\ region_parameters "aus" 4.5 800000
  /\ region_parameters "eu" 6.5 300000.
Proof.
  repeat split; intros [s c];
    match goal with |- context [get_mock_data ?r _] =>
      destruct (get_mock_data_run r s c)
        as (ds & calls & H & _ & _ & _ & Hc2 & Hrate & Hc6 & Hhouse)
    end;
    exists ds, (mkworld (advance 672 s) (c ++ calls)%list), calls;
    repeat split; assumption.
Qed.

(** C2. A region identifier other than "us" and "aus" runs exactly as "eu"
    does (same calls of [np.random.normal] with the same parameters, same
    tables, same final state), and it returns normally. *)
Theorem get_mock_data_unknown_region_as_eu (region : string) (w : np_world) :
  region <> "us" -> region <> "aus" ->
  get_mock_data region w = get_mock_data "eu" w
  /\ exists ds w', get_mock_data region w = (Ok ds, w').
Proof.
  intros Hus Haus. split; [| apply get_mock_data_returns].
  apply String.eqb_neq in Hus, Haus.
  unfold get_mock_data. rewrite Hus, Haus. reflexivity.
Qed.

End MockDataFacts.

Lemma get_mock_data_unknown_region_as_eu_witness :
  get_mock_data (G := CounterGenerator.generator) "nz" CounterGenerator.fresh
  = get_mock_data "eu" CounterGenerator.fresh
  /\ exists ds w',
       get_mock_data (G := CounterGenerator.generator) "nz" CounterGenerator.fresh
       = (Ok ds, w').
Proof.
  apply (get_mock_data_unknown_region_as_eu
           (G := CounterGenerator.generator) "nz" CounterGenerator.fresh);
    discriminate.
Defined.

(** ** The memoised function *)

Section CacheFacts.
Context {G : Generator}.

Lemma cached_hit region ss ds :
  cache ss !! region = Some ds -> cached_get_mock_data region ss = (Ok ds, ss).
Proof. intros H. unfold cached_get_mock_data, st_cache_data. now rewrite H. Qed.

(** A miss runs the body once, on the current generator, and stores what it
    returned. *)
Lemma cached_miss region ss :
  cache ss !! region = None ->
  exists ds calls,
    get_mock_data region (world ss)
    = (Ok ds, mkworld (advance 672 (np_state (world ss)))
                      (np_calls (world ss) ++ calls)%list)
    /\ length calls = 14%nat
    /\ cached_get_mock_data region ss
       = (Ok ds,
          mksession (mkworld (advance 672 (np_state (world ss)))
                             (np_calls (world ss) ++ calls)%list)
                    (<[region := ds]> (cache ss))).
Proof.
  intros H. destruct ss as [[s c] m]. cbn in *.
  destruct (get_mock_data_run region s c) as (ds & calls & Hrun & Hlen & _).
  exists ds, calls. repeat split; try assumption.
  unfold cached_get_mock_data, st_cache_data. cbn. now rewrite H, Hrun.
Qed.

Lemma cached_returns region ss :
  exists ds ss',
    cached_get_mock_data region ss = (Ok ds, ss')
    /\ cache ss' !! region = Some ds
    /\ (forall other, other <> region -> cache ss' !! other = cache ss !! other).
Proof.
  destruct (cache ss !! region) as [ds|] eqn:E.
  - exists ds, ss. split; [now apply cached_hit|]. split; [exact E | reflexivity].
  - destruct (cached_miss region ss E) as (ds & calls & _ & _ & Hc).
    eexists ds, _. split; [exact Hc|]. cbn. split.
    + apply lookup_insert_eq.
    + intros other Hne. now apply lookup_insert_ne.
Qed.

(** C4. Within one process (one [session]), a call returns a collection
    [ds] and a second call with the same region returns the same [ds] and
    leaves the whole state as it was: the generator has not moved and no
    call of [np.random.normal] was logged, so nothing was recomputed.  A
    call with another region that is not cached yet is not served from the
    first region's entry: it runs the body on the current generator (14 new
    calls of [np.random.normal]) and stores its own entry, after which both
    regions keep returning their own collections unchanged. *)
Theorem cached_get_mock_data_memoised (region : string) (ss : session) :
  exists ds ss1,
    cached_get_mock_data region ss = (Ok ds, ss1)
    /\ cached_get_mock_data region ss1 = (Ok ds, ss1)
    /\ forall other,
         other <> region -> cache ss !! other = None ->
         exists ds' calls ss2,
           cached_get_mock_data other ss1 = (Ok ds', ss2)
           /\ get_mock_data other (world ss1) = (Ok ds', world ss2)
           /\ np_calls (world ss2) = (np_calls (world ss1) ++ calls)%list
           /\ length calls = 14%nat
           /\ cached_get_mock_data region ss2 = (Ok ds, ss2)
           /\ cached_get_mock_data other ss2 = (Ok ds', ss2).
Proof.
  destruct (cached_returns region ss) as (ds & ss1 & Hrun & Hin & Hframe).
  exists ds, ss1. split; [exact Hrun|]. split; [now apply cached_hit|].
  intros other Hne Hnone.
  assert (Hmiss : cache ss1 !! other = None) by (rewrite Hframe; assumption).
  destruct (cached_miss other ss1 Hmiss) as (ds' & calls & Hbody & Hlen & Hc).
  eexists ds', calls, _. split; [exact Hc|]. cbn [world].
  split; [exact Hbody|]. split; [reflexivity|]. split; [exact Hlen|].
  split; apply cached_hit; cbn [cache].
  - rewrite lookup_insert_ne by assumption. exact Hin.
  - apply lookup_insert_eq.
Qed.

End CacheFacts.

Lemma cached_get_mock_data_memoised_witness :
  exists ds ds' ss1 ss2,
    cached_get_mock_data "us" Fixtures.empty_session = (Ok ds, ss1)
    /\ cached_get_mock_data "us" ss1 = (Ok ds, ss1)
    /\ cached_get_mock_data "aus" ss1 = (Ok ds', ss2)
    /\ cached_get_mock_data "us" ss2 = (Ok ds, ss2)
    /\ cached_get_mock_data "aus" ss2 = (Ok ds', ss2).
Proof.
  destruct (cached_get_mock_data_memoised "us" Fixtures.empty_session)
    as (ds & ss1 & H1 & H2 & Hother).
  destruct (Hother "aus") as (ds' & calls & ss2 & H3 & _ & _ & _ & H4 & H5);
    [discriminate | reflexivity |].
  exists ds, ds', ss1, ss2. repeat split; assumption.
Defined.

(** ** [create_chart] *)

Lemma line_is_line : String.eqb "line" "line" = true.
Proof. reflexivity. Qed.

Lemma create_chart_other_kind data kind theme :
  kind <> "line" -> create_chart data kind theme = Ok None.
Proof.
  intros H. apply String.eqb_neq in H. unfold create_chart. now rewrite H.
Qed.

(** Case analysis on the first statement that can raise. *)
Ltac rbind_case :=
  cbn [rbind] in *;
  match goal with
  | |- context [rbind ?r _] =>
      lazymatch r with
      | Ok _ => fail
      | Raise _ => fail
      | context [rbind] => fail
      | _ => destruct r eqn:?
      end
  | H : context [rbind ?r _] |- _ =>
      lazymatch r with
      | Ok _ => fail
      | Raise _ => fail
      | context [rbind] => fail
      | _ => destruct r eqn:?
      end
  end.

Lemma create_chart_line_not_none data theme :
  create_chart data "line" theme <> Ok None.
Proof.
  unfold create_chart. rewrite line_is_line.
  destruct (1 <? length (select_numeric_columns data))%nat;
    repeat rbind_case; cbn [rbind]; discriminate.
Qed.

Lemma create_chart_none_iff data kind theme :
  create_chart data kind theme = Ok None <-> kind <> "line".
Proof.
  split.
  - intros H ->. now apply create_chart_line_not_none in H.
  - apply create_chart_other_kind.
Qed.

Lemma create_chart_no_numeric data theme :
  select_numeric_columns data = [] ->
  create_chart data "line" theme = Raise IndexError.
Proof.
  intros H. unfold create_chart. rewrite line_is_line, H. reflexivity.
Qed.

(** What [update_layout] leaves in the layout of any chart [create_chart]
    returns. *)
Lemma create_chart_layout data kind theme fig :
  create_chart data kind theme = Ok (Some fig) ->
  let grid := dict_get theme "grid_color" (YStr "rgba(128, 128, 128, 0.1)") in
  let line := dict_get theme "line_color" (YStr "rgba(128, 128, 128, 0.3)") in
  let text := dict_get theme "text_color" (YStr "#1f2937") in
  gridcolor (xaxis (fig_layout fig)) = Some grid
  /\ gridcolor (yaxis (fig_layout fig)) = Some grid
  /\ linecolor (xaxis (fig_layout fig)) = Some line
  /\ linecolor (yaxis (fig_layout fig)) = Some line
  /\ tickfont_color (xaxis (fig_layout fig)) = Some text
  /\ tickfont_color (yaxis (fig_layout fig)) = Some text
  /\ font_color (fig_layout fig) = Some text.
Proof.
  unfold create_chart. intros H.
  destruct (String.eqb kind "line");
    [destruct (1 <? length (select_numeric_columns data))%nat|];
    repeat rbind_case; cbn [rbind] in H; try discriminate.
  all: injection H as <-; cbn; repeat split; reflexivity.
Qed.

Lemma dict_get_missing theme key dflt :
  theme !! key = None -> dict_get theme key dflt = dflt.
Proof. intros H. unfold dict_get. now rewrite H. Qed.

Lemma assoc_NoDup {A} (l : list (string * A)) (k : string) (v : A) :
  NoDup (map fst l) -> In (k, v) l -> assoc k l = Some v.
Proof.
  induction l as [|[k' v'] l IH]; intros Hnd Hin; [contradiction|].
  cbn in Hnd. apply NoDup_cons in Hnd as [Hk' Hnd]. cbn.
  destruct Hin as [Heq | Hin].
  - injection Heq as -> ->. now rewrite String.eqb_refl.
  - destruct (String.eqb k k') eqn:E; [| now apply IH].
    apply String.eqb_eq in E as ->. exfalso. apply Hk'.
    apply list_elem_of_In, in_map_iff. now exists (k', v).
Qed.

Lemma assoc_Some_in {A} (l : list (string * A)) (k : string) (v : A) :
  assoc k l = Some v -> In (k, v) l.
Proof.
  induction l as [|[k' v'] l IH]; cbn; [discriminate|].
  destruct (String.eqb k k') eqn:E.
  - apply String.eqb_eq in E as ->. intros [= ->]. now left.
  - intros H. right. now apply IH.
Qed.

Lemma numeric_columns_in data n ys :
  In (n, ys) (numeric_columns data) ->
  In (n, ys) (df_columns data) /\ is_numeric ys = true.
Proof.
  unfold numeric_columns. rewrite <- !list_elem_of_In, list_elem_of_filter. cbn.
  rewrite Is_true_true. tauto.
Qed.

Lemma numeric_column_get data n ys :
  NoDup (map fst (df_columns data)) ->
  In (n, ys) (numeric_columns data) -> df_get data n = Some ys.
Proof.
  intros Hnd Hin. apply assoc_NoDup; [assumption|].
  now apply numeric_columns_in.
Qed.


Lemma px_traces_ok data xs cs i cols :
  (forall n ys, In (n, ys) cols -> df_get data n = Some ys) ->
  px_traces data xs cs i (map fst cols) = Ok (wide_traces xs cs i cols).
Proof.
  revert i; induction cols as [|[n ys] rest IH]; intros i H; [reflexivity|].
  cbn. unfold px_column. rewrite (H n ys) by now left. cbn.
  rewrite IH by (intros; apply H; now right). reflexivity.
Qed.

Lemma wide_traces_y xs cs i cols :
  map tr_y (wide_traces xs cs i cols) = map snd cols.
Proof.
  revert i; induction cols as [|[n ys] rest IH]; intros i; cbn; [|rewrite IH]; reflexivity.
Qed.

Lemma wide_traces_color xs cs i cols :
  map tr_line_color (wide_traces xs cs i cols)
  = map (cycle_color cs) (seq i (length cols)).
Proof.
  revert i; induction cols as [|[n ys] rest IH]; intros i; cbn; [|rewrite IH]; reflexivity.
Qed.

Lemma wide_traces_x xs cs i cols :
  Forall (fun t => tr_x t = xs) (wide_traces xs cs i cols).
Proof.
  revert i; induction cols as [|[n ys] rest IH]; intros i; cbn;
    [apply Forall_nil_2 | apply Forall_cons_2; [reflexivity | apply IH]].
Qed.

Lemma update_traces_y f w h :
  map tr_y (fig_data (update_traces f w h)) = map tr_y (fig_data f).
Proof. unfold update_traces. cbn. rewrite map_map. reflexivity. Qed.

Lemma update_traces_color f w h :
  map tr_line_color (fig_data (update_traces f w h)) = map tr_line_color (fig_data f).
Proof. unfold update_traces. cbn. rewrite map_map. reflexivity. Qed.

Lemma update_traces_x f w h xs :
  Forall (fun t => tr_x t = xs) (fig_data f) ->
  Forall (fun t => tr_x t = xs /\ tr_line_width t = Some w)
    (fig_data (update_traces f w h)).
Proof.
  unfold update_traces. cbn. intros H. apply Forall_map.
  eapply Forall_impl; [exact H|]. cbn. auto.
Qed.

(** On well-formed inputs the line branch returns a chart with one trace
    per numeric column, in column order, coloured cyclically from the
    palette, all over the [Date] column and 2 units wide. *)
Lemma create_chart_line_traces data theme xs palette :
  chart_inputs data theme xs palette ->
  exists fig,
    create_chart data "line" theme = Ok (Some fig)
    /\ map tr_y (fig_data fig) = map snd (numeric_columns data)
    /\ map tr_line_color (fig_data fig)
       = map (cycle_color palette) (seq 0 (length (numeric_columns data)))
    /\ Forall (fun t => tr_x t = xs /\ tr_line_width t = Some 2) (fig_data fig).
Proof.
  intros [Hnd Hdate _ Hnum [tpl Htpl] Hpal Hne [font Hfont] [bg Hbg] [paper Hpaper]].
  assert (Hcs : palette_colors (YSeq palette) = Ok palette)
    by (destruct palette; [contradiction | reflexivity]).
  pose proof (numeric_column_get data) as Hget.
  unfold create_chart, select_numeric_columns.
  fold (numeric_columns data). rewrite line_is_line, length_map.
  unfold dict_getitem. rewrite Htpl, Hpal, Hfont, Hbg, Hpaper.
  destruct (numeric_columns data) as [|[n1 y1] [|[n2 y2] rest]] eqn:E;
    [contradiction | |].
  - cbn [length Nat.ltb Nat.leb map fst rbind].
    unfold px_line, px_column.
    rewrite Hdate, Hcs, (Hget n1 y1) by (assumption || now left).
    cbn [rbind]. eexists. split; [reflexivity|].
    rewrite update_traces_y, update_traces_color. cbn.
    repeat split; try reflexivity.
    apply Forall_cons_2; [split; reflexivity | apply Forall_nil_2].
  - change (1 <? length ((n1, y1) :: (n2, y2) :: rest))%nat with true.
    cbn [rbind]. unfold px_line, px_column. rewrite Hdate, Hcs. cbn [rbind].
    rewrite px_traces_ok by (intros; apply Hget; assumption).
    cbn [rbind]. eexists. split; [reflexivity|].
    rewrite update_traces_y, update_traces_color.
    cbn [fig_data]. rewrite wide_traces_y, wide_traces_color.
    repeat split; try reflexivity.
    apply update_traces_x. cbn [fig_data]. apply wide_traces_x.
Qed.




Lemma minimal_theme_inputs_ok (data : DataFrame) :
  NoDup (map fst (df_columns data)) ->
  df_get data "Date" = Some (ColDatetime Fixtures.two_dates) ->
  numeric_columns data <> [] ->
  chart_inputs data Fixtures.minimal_theme (ColDatetime Fixtures.two_dates)
    [YStr "#111"; YStr "#222"].
Proof.
  intros Hnd Hdate Hnum.
  split; try assumption; try reflexivity; try discriminate;
    eexists; vm_compute; reflexivity.
Qed.

(** C3, amended. For every theme without the keys [grid_color],
    [line_color] and [text_color], a chart returned by [create_chart] for
    the kind "line" has the default strings of the source, which contain
    spaces: ["rgba(128, 128, 128, 0.1)"] for the grid lines of both axes,
    ["rgba(128, 128, 128, 0.3)"] for their axis lines, and ["#1f2937"] for
    the tick labels and the font. *)
Theorem create_chart_default_colors data theme fig :
  theme !! "grid_color" = None ->
  theme !! "line_color" = None ->
  theme !! "text_color" = None ->
  create_chart data "line" theme = Ok (Some fig) ->
  gridcolor (xaxis (fig_layout fig)) = Some (YStr "rgba(128, 128, 128, 0.1)")
  /\ gridcolor (yaxis (fig_layout fig)) = Some (YStr "rgba(128, 128, 128, 0.1)")
  /\ linecolor (xaxis (fig_layout fig)) = Some (YStr "rgba(128, 128, 128, 0.3)")
  /\ linecolor (yaxis (fig_layout fig)) = Some (YStr "rgba(128, 128, 128, 0.3)")
  /\ tickfont_color (xaxis (fig_layout fig)) = Some (YStr "#1f2937")
  /\ tickfont_color (yaxis (fig_layout fig)) = Some (YStr "#1f2937")
  /\ font_color (fig_layout fig) = Some (YStr "#1f2937").
Proof.
  intros Hgrid Hline Htext Hrun.
  pose proof (create_chart_layout _ _ _ _ Hrun) as H. cbv zeta in H.
  rewrite (dict_get_missing _ _ _ Hgrid), (dict_get_missing _ _ _ Hline),
    (dict_get_missing _ _ _ Htext) in H.
  exact H.
Qed.

Lemma create_chart_default_colors_witness :
  exists fig,
    create_chart Fixtures.rate_table "line" Fixtures.minimal_theme = Ok (Some fig)
    /\ gridcolor (xaxis (fig_layout fig)) = Some (YStr "rgba(128, 128, 128, 0.1)")
    /\ linecolor (xaxis (fig_layout fig)) = Some (YStr "rgba(128, 128, 128, 0.3)")
    /\ font_color (fig_layout fig) = Some (YStr "#1f2937").
Proof.
  destruct (create_chart Fixtures.rate_table "line" Fixtures.minimal_theme)
    as [[fig|]|e] eqn:Hrun; try (vm_compute in Hrun; discriminate).
  exists fig. split; [reflexivity|].
  destruct (create_chart_default_colors
              Fixtures.rate_table Fixtures.minimal_theme fig)
    as (Hgx & _ & Hlx & _ & _ & _ & Hfont);
    [reflexivity | reflexivity | reflexivity | exact Hrun |].
  repeat split; assumption.
Defined.

(** Counterexample to C3 with the strings written without spaces: on a
    theme without the optional keys the grid and axis-line colours of the
    chart are not those strings. *)
Lemma documented_default_strings_not_applied :
  Fixtures.minimal_theme !! "grid_color" = None
  /\ Fixtures.minimal_theme !! "line_color" = None
  /\ Fixtures.minimal_theme !! "text_color" = None
  /\ exists fig,
       create_chart Fixtures.rate_table "line" Fixtures.minimal_theme = Ok (Some fig)
       /\ gridcolor (xaxis (fig_layout fig)) <> Some (YStr "rgba(128,128,128,0.1)")
       /\ linecolor (xaxis (fig_layout fig)) <> Some (YStr "rgba(128,128,128,0.3)").
Proof.
  repeat split; try reflexivity.
  eexists. split; [vm_compute; reflexivity|]. split; discriminate.
Qed.






(** C9. For a table without numeric columns [create_chart] with the kind
    "line" raises [IndexError], whatever the theme: the empty column list
    is indexed before the theme is read.  It does not return the unset
    figure, which only a kind other than "line" gives. *)
Theorem create_chart_no_numeric_column data theme :
  select_numeric_columns data = [] ->
  create_chart data "line" theme = Raise IndexError
  /\ create_chart data "line" theme <> Ok None
  /\ (forall data' kind theme',
        create_chart data' kind theme' = Ok None -> kind <> "line").
Proof.
  intros H. split; [now apply create_chart_no_numeric|].
  split; [apply create_chart_line_not_none|].
  intros data' kind theme'. apply create_chart_none_iff.
Qed.

Lemma create_chart_no_numeric_column_witness :
  create_chart Fixtures.dates_only_table "line" ∅ = Raise IndexError.
Proof.
  apply (create_chart_no_numeric_column Fixtures.dates_only_table ∅).
  reflexivity.
Defined.

(** ** [load_themes] *)

Lemma rfind_dot_yaml base i :
  rfind_dot (base +:+ ".yaml") i = Some (i + String.length base)%nat.
Proof.
  revert i; induction base as [|c base IH]; intros i.
  - cbn. f_equal. lia.
  - change (String c base +:+ ".yaml") with (String c (base +:+ ".yaml")).
    cbn [rfind_dot String.length]. rewrite IH. f_equal. lia.
Qed.

Lemma substring_prefix a b : substring 0 (String.length a) (a +:+ b) = a.
Proof.
  induction a as [|c a IH].
  - now destruct b.
  - change (String c a +:+ b) with (String c (a +:+ b)). cbn. now rewrite IH.
Qed.

Lemma substring_suffix a b :
  substring (String.length a) (String.length b) (a +:+ b) = b.
Proof.
  induction a as [|c a IH].
  - change ("" +:+ b) with b. cbn [String.length].
    induction b as [|d b IHb]; cbn; [reflexivity | now rewrite IHb].
  - change (String c a +:+ b) with (String c (a +:+ b)). cbn. exact IH.
Qed.

Lemma length_app_string a b :
  String.length (a +:+ b) = (String.length a + String.length b)%nat.
Proof.
  induction a as [|c a IH]; [reflexivity|].
  change (String c a +:+ b) with (String c (a +:+ b)). cbn. now rewrite IH.
Qed.

(** The theme name of [base.yaml] is [base]. *)
Lemma stem_yaml base : base <> "" -> stem (base +:+ ".yaml") = base.
Proof.
  intros Hne. unfold stem. rewrite rfind_dot_yaml, length_app_string.
  cbn [Nat.add String.length].
  destruct base as [|c base]; [contradiction|].
  replace ((0 <? String.length (String c base))%nat
           && (String.length (String c base)
               <? String.length (String c base) + 5 - 1)%nat) with true.
  - apply substring_prefix.
  - symmetry. apply andb_true_iff. split; apply Nat.ltb_lt; cbn; lia.
Qed.

Lemma matches_yaml_suffix base : matches_yaml (base +:+ ".yaml") = true.
Proof.
  unfold matches_yaml. rewrite length_app_string. cbn [String.length].
  replace (String.length base + 5 - 5)%nat with (String.length base) by lia.
  pose proof (substring_suffix base ".yaml") as Hs. cbn [String.length] in Hs.
  rewrite Hs.
  apply andb_true_iff. split; [apply Nat.leb_le; lia | reflexivity].
Qed.

Lemma glob_yaml_in name e listing :
  In (name, e) (glob_yaml listing) <-> In (name, e) listing /\ matches_yaml name = true.
Proof.
  unfold glob_yaml. rewrite <- !list_elem_of_In, list_elem_of_filter. cbn.
  rewrite Is_true_true. tauto.
Qed.

Section LoadThemesFacts.
Context {L : YamlLoader}.

(** The loop stores under each file's stem exactly what the loader returned
    for it, and touches no other key. *)
Lemma load_loop_spec files themes :
  NoDup (map (fun f => stem (fst f)) files) ->
  Forall parses files ->
  exists out,
    load_loop files themes = Ok out
    /\ (forall name text doc,
          In (name, RegularFile text) files -> safe_load text = Ok doc ->
          out !! stem name = Some doc)
    /\ (forall k, ~ In k (map (fun f => stem (fst f)) files) ->
          out !! k = themes !! k).
Proof.
  revert themes; induction files as [|[name e] rest IH]; intros themes Hnd Hall.
  - exists themes. split; [reflexivity|].
    split; [intros ? ? ? [] | reflexivity].
  - cbn in Hnd. apply NoDup_cons in Hnd as [Hfresh Hnd].
    apply Forall_cons_1 in Hall as [(text & doc & He & Hdoc) Hall].
    cbn in He. subst e.
    destruct (IH (<[stem name := doc]> themes) Hnd Hall) as (out & Hrun & Hget & Hframe).
    exists out. cbn [load_loop open_read rbind]. rewrite Hdoc. cbn [rbind].
    split; [exact Hrun|]. split.
    + intros name' text' doc' [Heq | Hin] Hdoc'.
      * injection Heq as <- <-. rewrite Hframe.
        -- rewrite lookup_insert_eq. congruence.
        -- intros Hin. apply Hfresh. now apply list_elem_of_In.
      * now apply (Hget name' text').
    + intros k Hk. rewrite Hframe.
      * apply lookup_insert_ne. intros <-. apply Hk. now left.
      * intros Hin. apply Hk. now right.
Qed.

(** A file that cannot be parsed fails the whole load. *)
Lemma load_themes_malformed name text rest :
  matches_yaml name = true -> safe_load text = Raise YAMLError ->
  load_themes ((name, RegularFile text) :: rest) = Raise YAMLError.
Proof.
  intros Hm Hbad. unfold load_themes, glob_yaml.
  rewrite filter_cons_True by (cbn; now rewrite Hm).
  cbn. now rewrite Hbad.
Qed.

(** C8. When the [*.yaml] files of the directory have distinct stems and
    each can be read and parsed, [load_themes] returns a mapping in which
    every such file's stem is bound to the document the loader returned for
    its text, unchanged; the theme of [base.yaml] is named [base]; and the
    mapping has no other key. *)
Theorem load_themes_verbatim listing :
  NoDup (map (fun f => stem (fst f)) (glob_yaml listing)) ->
  Forall parses (glob_yaml listing) ->
  exists themes,
    load_themes listing = Ok themes
    /\ (forall name text doc,
          In (name, RegularFile text) listing -> matches_yaml name = true ->
          safe_load text = Ok doc -> themes !! stem name = Some doc)
    /\ (forall base text doc,
          base <> "" -> In (base +:+ ".yaml", RegularFile text) listing ->
          safe_load text = Ok doc -> themes !! base = Some doc)
    /\ (forall k, is_Some (themes !! k) ->
          exists name e, In (name, e) listing /\ matches_yaml name = true
                         /\ k = stem name).
Proof.
  intros Hnd Hall.
  destruct (load_loop_spec (glob_yaml listing) ∅ Hnd Hall)
    as (themes & Hrun & Hget & Hframe).
  exists themes. split; [exact Hrun|].
  assert (Hstem : forall name text doc,
             In (name, RegularFile text) listing -> matches_yaml name = true ->
             safe_load text = Ok doc -> themes !! stem name = Some doc).
  { intros name text doc Hin Hm Hdoc. apply (Hget name text); [|assumption].
    apply glob_yaml_in. now split. }
  split; [exact Hstem|]. split.
  - intros base text doc Hne Hin Hdoc.
    rewrite <- (stem_yaml base Hne). apply (Hstem _ text); try assumption.
    apply matches_yaml_suffix.
  - intros k Hk.
    destruct (in_dec string_dec k (map (fun f => stem (fst f)) (glob_yaml listing)))
      as [Hin | Hout].
    + apply in_map_iff in Hin as ([name e] & <- & Hin).
      apply glob_yaml_in in Hin as [Hin Hm]. now exists name, e.
    + rewrite (Hframe k Hout), lookup_empty in Hk. now destruct Hk.
Qed.

End LoadThemesFacts.

Lemma theme_dir_stems_distinct :
  NoDup (map (fun f => stem (fst f)) (glob_yaml Fixtures.theme_dir)).
Proof.
  change (NoDup [stem "dark.yaml"]).
  apply NoDup_cons_2; [apply not_elem_of_nil | apply NoDup_nil_2].
Qed.

Lemma theme_dir_parses :
  Forall (parses (L := FlatYaml.loader)) (glob_yaml Fixtures.theme_dir).
Proof.
  change (Forall (parses (L := FlatYaml.loader))
            [("dark.yaml", RegularFile FlatYaml.dark_text)]).
  apply Forall_cons_2; [|apply Forall_nil_2].
  exists FlatYaml.dark_text, (YMap FlatYaml.dark_theme).
  split; [reflexivity | exact flat_yaml_dark].
Qed.

(** The round-trip scenario: the four-line file [dark.yaml] loads as the
    theme "dark" whose attributes are the literal values of the file. *)
Lemma load_themes_verbatim_witness :
  exists themes,
    load_themes (L := FlatYaml.loader) Fixtures.theme_dir = Ok themes
    /\ themes !! "dark"
       = Some (YMap (<["plotly_template" := YStr "plotly_dark"]>
                    (<["color_palette" := YSeq [YStr "#111"; YStr "#222"]]>
                    (<["font_family" := YStr "Arial"]>
                    (<["paper_color" := YStr "#000"]> ∅))))).
Proof.
  destruct (load_themes_verbatim (L := FlatYaml.loader) Fixtures.theme_dir
              theme_dir_stems_distinct theme_dir_parses)
    as (themes & Hload & _ & Hbase & _).
  exists themes. split; [exact Hload|].
  apply (Hbase "dark" FlatYaml.dark_text); [discriminate | now left |].
  exact flat_yaml_dark.
Defined.

(** * Further properties: the generated tables, the chart, the themes, the
    page *)

(** ** The tables of [get_mock_data] *)

(** Proves [series_table] of a table written out column by column. *)
Ltac series_table_tac :=
  eexists; split; [reflexivity|]; split; [cbn; auto|]; split;
  [ repeat (apply Forall_cons_2;
            [eexists; split; [reflexivity|];
             rewrite ?arr_add_length, ?arr_mul_length, ?np_cumsum_length,
               ?length_map, ?deviates_length; reflexivity|]);
    apply Forall_nil_2
  | cbn [df_columns map fst];
    match goal with
    | |- NoDup ?l => apply (bool_decide_eq_true_1 (NoDup l)); vm_compute; reflexivity
    end ].

Section MockShape.
Context {G : Generator}.

Lemma get_mock_data_run_shape (region : string) (s : rng) (c : list normal_call) :
  exists (ds : collection) (calls : list normal_call),
    get_mock_data region (mkworld s c)
    = (Ok ds, mkworld (advance 672 s) (c ++ calls)%list)
    /\ schema_of ds = mock_schema
    /\ Forall (fun kd => series_table (snd kd)) ds
    /\ length calls = 14%nat
    /\ Forall (fun k => call_size k = 48%nat
                        /\ (0 <? call_scale k)%float = true) calls.
Proof.
  unfold get_mock_data.
  case_region region; run_mock.
  all: eexists _, _; (split; [reflexivity|]); (split; [reflexivity|]).
  all: split;
    [ repeat (apply Forall_cons_2; [cbn [snd]; series_table_tac|]);
      apply Forall_nil_2 | ].
  all: split; [reflexivity|].
  all: repeat (apply Forall_cons_2; [split; [reflexivity | vm_compute; reflexivity]|]);
    apply Forall_nil_2.
Qed.

End MockShape.

Section MockDataMore.
Context {G : Generator}.

(** X1. For every region string and every generator state, [get_mock_data]
    returns, in this order, the twelve tables with the column names of
    [mock_schema] ("Employment Trends" with "Date", "Full Time" and
    "Part Time", "Trade Balance" with "Date", "Exports" and "Imports", the
    others with "Date" and one value column), and each table is the shared
    [Date] axis followed by one or two float columns of 48 values under
    distinct names. *)
Theorem get_mock_data_schema (region : string) (w : np_world) :
  exists ds w',
    get_mock_data region w = (Ok ds, w')
    /\ schema_of ds = mock_schema
    /\ Forall (fun kd => series_table (snd kd)) ds.
Proof.
  destruct w as [s c].
  destruct (get_mock_data_run_shape region s c) as (ds & calls & H & Hs & Ht & _).
  eauto.
Qed.

(** X2. One run of [get_mock_data] makes 14 calls of
    [np.random.normal], each for 48 samples with a positive scale, so it
    never raises and moves the global generator on by 672 deviates; a second
    run, for any region, continues from where the first stopped (1344
    deviates after both), its calls logged after those of the first. *)
Theorem get_mock_data_draws (r1 r2 : string) (w : np_world) :
  exists ds1 calls1 ds2 calls2 w1 w2,
    get_mock_data r1 w = (Ok ds1, w1)
    /\ get_mock_data r2 w1 = (Ok ds2, w2)
    /\ np_state w1 = advance 672 (np_state w)
    /\ np_state w2 = advance 1344 (np_state w)
    /\ np_calls w1 = (np_calls w ++ calls1)%list
    /\ np_calls w2 = (np_calls w ++ calls1 ++ calls2)%list
    /\ length calls1 = 14%nat /\ length calls2 = 14%nat
    /\ Forall (fun k => call_size k = 48%nat /\ (0 <? call_scale k)%float = true)
         (calls1 ++ calls2).
Proof.
  destruct w as [s c].
  destruct (get_mock_data_run_shape r1 s c) as (ds1 & calls1 & H1 & _ & _ & Hl1 & Hc1).
  destruct (get_mock_data_run_shape r2 (advance 672 s) (c ++ calls1))
    as (ds2 & calls2 & H2 & _ & _ & Hl2 & Hc2).
  exists ds1, calls1, ds2, calls2. eexists _, _.
  split; [exact H1|]. split; [exact H2|]. cbn [np_state np_calls].
  rewrite advance_add, <- app_assoc.
  repeat split; try assumption; try reflexivity.
  now apply Forall_app.
Qed.

End MockDataMore.

Lemma filter_numeric_floats (rest : list (string * column)) :
  Forall (fun kc => exists v, snd kc = ColFloat v /\ length v = 48%nat) rest ->
  filter (fun kc => is_numeric (snd kc)) rest = rest.
Proof.
  induction 1 as [|[n c] rest (v & Hc & _) _ IH]; [reflexivity|].
  cbn in Hc. subst c. rewrite filter_cons_True by reflexivity. now rewrite IH.
Qed.

Lemma series_table_numeric df rest :
  df_columns df = ("Date", ColDatetime mock_dates) :: rest ->
  Forall (fun kc => exists v, snd kc = ColFloat v /\ length v = 48%nat) rest ->
  numeric_columns df = rest.
Proof.
  intros Hcols Hrest. unfold numeric_columns. rewrite Hcols.
  rewrite filter_cons_False by (cbn; auto).
  now apply filter_numeric_floats.
Qed.

Lemma series_table_chart_inputs df theme :
  series_table df -> complete_theme theme ->
  exists palette,
    chart_inputs df theme (ColDatetime mock_dates) palette
    /\ numeric_columns df = tail (df_columns df).
Proof.
  intros (rest & Hcols & Hlen & Hrest & Hnd) (Htpl & (c & cs & Hpal) & Hfont & Hbg & Hpaper).
  exists (c :: cs).
  pose proof (series_table_numeric df rest Hcols Hrest) as Hnum.
  split; [| now rewrite Hnum, Hcols].
  split; try assumption; try discriminate; try reflexivity.
  - unfold df_get. now rewrite Hcols.
  - rewrite Hnum. destruct rest; [cbn in Hlen; lia | discriminate].
Qed.


(** ** What [create_chart] puts in a figure, and when it raises *)



(** X5. Whenever [create_chart] returns a figure, the chart kind was
    "line" and the figure carries the fixed layout of the source whatever the
    table and the theme: height 300, margins t=30 r=10 b=10 l=10, hover label
    font size 12, x ticks formatted "%b %Y", grid and axis lines shown with
    width 1 on both axes, and every trace with line width 2 and the hover
    template of line 157. *)
Theorem create_chart_fixed_policy data kind theme fig :
  create_chart data kind theme = Ok (Some fig) ->
  kind = "line"
  /\ height (fig_layout fig) = Some 300
  /\ margin (fig_layout fig) = Some (mkmargins 30 10 10 10)
  /\ hl_font_size (hoverlabel (fig_layout fig)) = Some 12
  /\ tickformat (xaxis (fig_layout fig)) = Some "%b %Y"
  /\ Forall (fun ax => showgrid ax = Some true /\ gridwidth ax = Some 1
                       /\ showline ax = Some true /\ linewidth ax = Some 1)
       [xaxis (fig_layout fig); yaxis (fig_layout fig)]
  /\ Forall (fun t => tr_line_width t = Some 2
                      /\ tr_hovertemplate t
                         = Some "%{y:,.1f}<br>%{x|%B %Y}<extra></extra>")
       (fig_data fig).
Proof.
  unfold create_chart. intros H.
  destruct (String.eqb kind "line") eqn:Hkind;
    [destruct (1 <? length (select_numeric_columns data))%nat|];
    repeat rbind_case; cbn [rbind] in H; try discriminate.
  all: apply String.eqb_eq in Hkind; injection H as <-; cbn.
  all: repeat split; try assumption;
    try (repeat (apply Forall_cons_2; [repeat split|]); apply Forall_nil_2).
  all: apply Forall_map, Forall_forall; intros; cbn; split; reflexivity.
Qed.




(** ** [load_themes]: no file, a bad file, two files of one name *)

Section LoadThemesMore.
Context {L : YamlLoader}.

Lemma glob_yaml_none listing :
  Forall (fun f => matches_yaml (fst f) = false) listing -> glob_yaml listing = [].
Proof.
  unfold glob_yaml. induction 1 as [|f l Hf _ IH]; [reflexivity|].
  rewrite filter_cons_False by (cbn; rewrite Hf; auto). exact IH.
Qed.

(** X8. When no entry of the themes directory matches [*.yaml],
    [load_themes] returns the empty mapping: no file is opened, nothing is
    raised. *)
Theorem load_themes_no_yaml listing :
  Forall (fun f => matches_yaml (fst f) = false) listing ->
  load_themes listing = Ok ∅.
Proof.
  intros H. unfold load_themes. now rewrite (glob_yaml_none listing H).
Qed.

Lemma load_loop_app pre post themes :
  load_loop (pre ++ post) themes
  = (let! mid := load_loop pre themes in load_loop post mid)%result.
Proof.
  revert themes; induction pre as [|[name e] pre IH]; intros themes; [reflexivity|].
  rewrite <- app_comm_cons. cbn [load_loop].
  destruct (open_read name e) as [text|err]; cbn [rbind]; [|reflexivity].
  destruct (safe_load text) as [doc|err]; cbn [rbind]; [apply IH | reflexivity].
Qed.

Lemma load_loop_parses files themes :
  Forall parses files -> exists out, load_loop files themes = Ok out.
Proof.
  revert themes; induction files as [|[name e] rest IH]; intros themes Hall.
  - now exists themes.
  - apply Forall_cons_1 in Hall as [(text & doc & He & Hdoc) Hall].
    cbn in He. subst e. cbn [load_loop open_read rbind]. rewrite Hdoc. cbn [rbind].
    apply IH, Hall.
Qed.

(** X9. [load_themes] stops at the first [*.yaml] entry, in listing
    order, that cannot be opened or parsed: when the matching entries before
    it all load, the call raises that entry's error, whatever follows it in
    the directory. *)
Theorem load_themes_first_failure pre name e post err :
  Forall parses (glob_yaml pre) ->
  matches_yaml name = true ->
  (let! text := open_read name e in safe_load text)%result = Raise err ->
  load_themes (pre ++ (name, e) :: post) = Raise err.
Proof.
  intros Hpre Hm Hbad. unfold load_themes, glob_yaml.
  rewrite filter_app, filter_cons_True by (cbn; now rewrite Hm).
  rewrite load_loop_app.
  destruct (load_loop_parses (glob_yaml pre) ∅ Hpre) as (mid & Hmid).
  unfold glob_yaml in Hmid. rewrite Hmid. cbn [rbind load_loop].
  destruct (open_read name e) as [text|err']; cbn [rbind] in *.
  - now rewrite Hbad.
  - congruence.
Qed.

Lemma load_loop_frame files themes out k :
  load_loop files themes = Ok out ->
  Forall (fun f => stem (fst f) <> k) files ->
  out !! k = themes !! k.
Proof.
  revert themes; induction files as [|[name e] rest IH]; intros themes Hrun Hk.
  - cbn in Hrun. congruence.
  - apply Forall_cons_1 in Hk as [Hne Hk]. cbn [fst] in Hne.
    cbn [load_loop] in Hrun.
    destruct (open_read name e) as [text|err]; cbn [rbind] in Hrun; [|discriminate].
    destruct (safe_load text) as [doc|err]; cbn [rbind] in Hrun; [|discriminate].
    rewrite (IH _ Hrun Hk). now apply lookup_insert_ne.
Qed.

Lemma load_loop_dom files themes out :
  load_loop files themes = Ok out ->
  dom out = list_to_set (map (fun f => stem (fst f)) files) ∪ dom themes.
Proof.
  revert themes; induction files as [|[name e] rest IH]; intros themes Hrun.
  - cbn in Hrun. injection Hrun as <-. cbn. set_solver.
  - cbn [load_loop] in Hrun.
    destruct (open_read name e) as [text|err]; cbn [rbind] in Hrun; [|discriminate].
    destruct (safe_load text) as [doc|err]; cbn [rbind] in Hrun; [|discriminate].
    rewrite (IH _ Hrun), dom_insert_L. cbn [map list_to_set fst]. set_solver.
Qed.

(** X10. When [load_themes] returns, a [*.yaml] file that no later
    matching file shares its stem with is bound, under its stem, to the
    document the loader returned for it, whether or not an earlier file had
    the same stem: of two files with one stem the later one wins. *)
Theorem load_themes_last_wins pre name text post themes :
  load_themes (pre ++ (name, RegularFile text) :: post) = Ok themes ->
  matches_yaml name = true ->
  Forall (fun f => matches_yaml (fst f) = true -> stem (fst f) <> stem name) post ->
  exists doc, safe_load text = Ok doc /\ themes !! stem name = Some doc.
Proof.
  unfold load_themes, glob_yaml. intros Hrun Hm Hpost.
  rewrite filter_app, filter_cons_True in Hrun by (cbn; now rewrite Hm).
  rewrite load_loop_app in Hrun.
  destruct (load_loop (filter _ pre) ∅) as [mid|err]; cbn [rbind] in Hrun;
    [|discriminate].
  cbn [load_loop open_read rbind] in Hrun.
  destruct (safe_load text) as [doc|err]; cbn [rbind] in Hrun; [|discriminate].
  exists doc. split; [reflexivity|].
  rewrite (load_loop_frame _ _ _ (stem name) Hrun).
  - apply lookup_insert_eq.
  - apply list.Forall_forall. intros f Hf.
    apply list_elem_of_filter in Hf as [Hmf Hin].
    rewrite list.Forall_forall in Hpost. apply Hpost.
    + exact Hin.
    + cbn in Hmf. now apply Is_true_true.
Qed.

(** X11. The keys of the mapping [load_themes] returns (the options
    the theme select box offers) are exactly the stems of the [*.yaml]
    entries of the directory. *)
Theorem load_themes_names listing themes :
  load_themes listing = Ok themes ->
  dom themes = list_to_set (map (fun f => stem (fst f)) (glob_yaml listing)).
Proof.
  intros Hrun. unfold load_themes in Hrun.
  rewrite (load_loop_dom _ _ _ Hrun). set_solver.
Qed.

End LoadThemesMore.

(** ** The page: elements, containers, widget keys *)

Example page_css_length : String.length page_css = 1072%nat.
Proof. vm_compute. reflexivity. Qed.

Section PageFacts.
Context {G : Generator}.

Lemma render_nil (st : app_state) : render [] ∅ st = st.
Proof.
  destruct st as [p [c s k]]. unfold render. cbn.
  now rewrite app_nil_r, (left_id_L ∅ (∪)).
Qed.

Lemma render_render e1 k1 e2 k2 (st : app_state) :
  render e2 k2 (render e1 k1 st) = render (e1 ++ e2) (k2 ∪ k1) st.
Proof.
  unfold render. cbn. now rewrite <- app_assoc, (assoc_L (∪)).
Qed.

Lemma emit_render e (st : app_state) :
  emit e st = (Done tt, render [(context (page st), e)] ∅ st).
Proof.
  unfold emit, emit_in, render. now rewrite (left_id_L ∅ (∪)).
Qed.

Lemma st_button_fresh label key (st : app_state) :
  key ∉ widget_keys (page st) ->
  st_button label key st
  = (Done tt, render [(context (page st), Button label key)] {[key]} st).
Proof.
  intros H. unfold st_button. destruct (decide (key ∈ widget_keys (page st)));
    [contradiction | reflexivity].
Qed.

Lemma st_button_taken label key (st : app_state) :
  key ∈ widget_keys (page st) ->
  st_button label key st = (Failed (DuplicateWidgetID key), st).
Proof.
  intros H. unfold st_button. destruct (decide (key ∈ widget_keys (page st)));
    [reflexivity | contradiction].
Qed.

Lemma with_place_render {A} p (body : app A) (st : app_state) r evs ks :
  body (enter p st) = (r, render evs ks (enter p st)) ->
  with_place p body st = (r, render evs ks st).
Proof.
  unfold with_place, enter. intros ->. reflexivity.
Qed.

End PageFacts.

(** ** Widget keys *)

Lemma underscores_app a b : underscores (a +:+ b) = (underscores a + underscores b)%nat.
Proof.
  induction a as [|c a IH]; [reflexivity|].
  change (String c a +:+ b) with (String c (a +:+ b)). cbn. rewrite IH. lia.
Qed.

Lemma pretty_N_char_not_underscore y : Ascii.eqb (pretty_N_char y) "_" = false.
Proof. unfold pretty_N_char. repeat case_match; reflexivity. Qed.

Lemma underscores_pretty_go x s : underscores (pretty_N_go x s) = underscores s.
Proof.
  revert s. induction (N.lt_wf_0 x) as [x _ IH]; intros s.
  destruct (decide (x = 0)%N) as [->|Hx]; [reflexivity|].
  rewrite pretty_N_go_step by lia. rewrite IH by (apply N.div_lt; lia).
  cbn [underscores]. now rewrite pretty_N_char_not_underscore.
Qed.

Lemma underscores_pretty (k : nat) : underscores (pretty k) = 0%nat.
Proof.
  unfold pretty, pretty_nat, pretty, pretty_N.
  case_decide; [reflexivity|]. apply underscores_pretty_go.
Qed.

Lemma button_key_inj p1 k1 p2 k2 :
  button_key p1 k1 = button_key p2 k2 -> p1 = p2 /\ k1 = k2.
Proof.
  unfold button_key.
  assert (Hstep : forall (p : string) (a b : nat),
             p +:+ "_btn_" +:+ pretty a = "_btn_" +:+ pretty b -> p = "").
  { intros p a b H.
    destruct p as [|c p]; [reflexivity|exfalso].
    change (String c p +:+ "_btn_" +:+ pretty a)
      with (String c (p +:+ "_btn_" +:+ pretty a)) in H.
    change ("_btn_" +:+ pretty b) with (String "_" ("btn_" +:+ pretty b)) in H.
    injection H as _ H. apply (f_equal underscores) in H.
    rewrite !underscores_app, !underscores_pretty in H. cbn in H. lia. }
  revert p2; induction p1 as [|c1 p1 IH]; intros p2 H.
  - change ("" +:+ "_btn_" +:+ pretty k1) with ("_btn_" +:+ pretty k1) in H.
    symmetry in H. pose proof (Hstep p2 k2 k1 H) as Hp. subst p2.
    split; [reflexivity|].
    change ("" +:+ "_btn_" +:+ pretty k2) with ("_btn_" +:+ pretty k2) in H.
    apply (inj (String.app "_btn_")) in H. now apply (inj pretty) in H.
  - destruct p2 as [|c2 p2].
    + change ("" +:+ "_btn_" +:+ pretty k2) with ("_btn_" +:+ pretty k2) in H.
      pose proof (Hstep (String c1 p1) k1 k2 H) as Hp. discriminate.
    + change (String c1 p1 +:+ "_btn_" +:+ pretty k1)
        with (String c1 (p1 +:+ "_btn_" +:+ pretty k1)) in H.
      change (String c2 p2 +:+ "_btn_" +:+ pretty k2)
        with (String c2 (p2 +:+ "_btn_" +:+ pretty k2)) in H.
      injection H as -> H. destruct (IH p2 H) as [-> ->]. auto.
Qed.


(** X12. The widget key [f"{region_prefix}_btn_{k}"] determines the
    prefix and the panel number: two buttons that differ in the prefix or in
    the number never get the same key, for arbitrary prefix strings. *)
Theorem button_key_distinct p1 k1 p2 k2 :
  p1 <> p2 \/ k1 <> k2 -> button_key p1 k1 <> button_key p2 k2.
Proof.
  intros Hne Heq. apply button_key_inj in Heq as [Hp Hk]. tauto.
Qed.

(** ** [display_charts] *)

Section DisplayFacts.
Context {G : Generator}.
Variables (ds : collection) (theme : gmap string yaml) (prefix : string).

Lemma display_panel_skip i j (st : app_state) :
  (length ds <= i + j)%nat ->
  display_panel ds theme prefix i j st = (Done tt, st).
Proof.
  intros H. unfold display_panel.
  replace (i + j <? length ds)%nat with false; [reflexivity|].
  symmetry. apply Nat.ltb_ge. exact H.
Qed.

Lemma display_panel_ok i j title data fig (st : app_state) :
  ds !! (i + j)%nat = Some (title, data) ->
  create_chart data "line" theme = Ok (Some fig) ->
  button_key prefix (i + j) ∉ widget_keys (page st) ->
  display_panel ds theme prefix i j st
  = (Done tt,
     render [(InColumn j :: context (page st), Subheader title);
             (InColumn j :: context (page st), PlotlyChart (Some fig) true false);
             (InColumn j :: context (page st),
              Button "Purchase" (button_key prefix (i + j)))]
       {[button_key prefix (i + j)]} st).
Proof.
  intros Hget Hfig Hfresh. unfold display_panel.
  replace (i + j <? length ds)%nat with true
    by (symmetry; apply Nat.ltb_lt; eapply lookup_lt_Some; exact Hget).
  rewrite Hget. unfold app_bind at 1. cbn [app_ret].
  apply with_place_render.
  unfold app_bind, st_subheader, st_plotly_chart. rewrite emit_render.
  rewrite Hfig. cbn [app_py app_ret]. rewrite emit_render.
  rewrite render_render.
  rewrite st_button_fresh by (cbn; set_solver).
  rewrite render_render. cbn.
  f_equal. unfold render. cbn. f_equal. f_equal. set_solver.
Qed.

End DisplayFacts.

Section GridFacts.
Context {G : Generator}.
Variables (ds : collection) (theme : gmap string yaml) (prefix : string)
  (figs : list Figure).
Hypothesis Hfigs :
  Forall2 (fun kd fig => create_chart (snd kd) "line" theme = Ok (Some fig)) ds figs.

Local Abbreviation panels := (panels_of ds figs).
Local Abbreviation events_at := (slot_events prefix (panels_of ds figs)).
Local Abbreviation keys_at := (slot_keys prefix (length ds)).
Local Abbreviation keys_after := (keys_from prefix (length ds)).

Lemma panels_length : length panels = length ds.
Proof.
  unfold panels_of. rewrite length_zip_with, length_map.
  rewrite <- (Forall2_length _ _ _ Hfigs). lia.
Qed.

Lemma panel_lookup k :
  (k < length ds)%nat ->
  exists title data fig,
    ds !! k = Some (title, data)
    /\ create_chart data "line" theme = Ok (Some fig)
    /\ panels !! k = Some (title, fig).
Proof.
  intros Hk. destruct (lookup_lt_is_Some_2 ds k Hk) as [[title data] Hget].
  destruct (Forall2_lookup_l _ _ _ _ _ Hfigs Hget) as (fig & Hfig & Hchart).
  exists title, data, fig. split; [exact Hget|]. split; [exact Hchart|].
  unfold panels_of. apply lookup_zip_with_Some. exists title, fig.
  split; [reflexivity|]. split; [|exact Hfig].
  rewrite list_lookup_fmap, Hget. reflexivity.
Qed.

Lemma keys_from_step i : keys_after i = keys_at i ∪ keys_after (S i).
Proof.
  unfold keys_from, slot_keys. destruct (i <? length ds)%nat eqn:E.
  - apply Nat.ltb_lt in E.
    replace (length ds - i)%nat with (S (length ds - S i)) by lia. reflexivity.
  - apply Nat.ltb_ge in E.
    replace (length ds - i)%nat with 0%nat by lia.
    replace (length ds - S i)%nat with 0%nat by lia. cbn. set_solver.
Qed.

Lemma grid_events_step ctx k :
  grid_events ctx prefix k (drop k panels)
  = ((if (k <? length ds)%nat
      then (if (k mod 3 =? 0)%nat then [(ctx, Columns 3 "large")] else [])
      else [])
     ++ events_at ctx k ++ grid_events ctx prefix (S k) (drop (S k) panels))%list.
Proof.
  unfold slot_events. destruct (k <? length ds)%nat eqn:E.
  - apply Nat.ltb_lt in E. destruct (panel_lookup k E) as (title & data & fig & _ & _ & Hp).
    rewrite Hp, (drop_S _ _ _ Hp). reflexivity.
  - apply Nat.ltb_ge in E.
    rewrite (lookup_ge_None_2 panels k) by (rewrite panels_length; lia).
    rewrite !drop_ge by (rewrite panels_length; lia). reflexivity.
Qed.

Lemma display_panel_slot a j (st : app_state) :
  (j < 3)%nat ->
  ((3 * a + j < length ds)%nat ->
   button_key prefix (3 * a + j) ∉ widget_keys (page st)) ->
  display_panel ds theme prefix (3 * a) j st
  = (Done tt, render (events_at (context (page st)) (3 * a + j))
                (keys_at (3 * a + j)) st).
Proof.
  intros Hj Hfresh. unfold slot_events, slot_keys.
  destruct (3 * a + j <? length ds)%nat eqn:E.
  - apply Nat.ltb_lt in E.
    destruct (panel_lookup _ E) as (title & data & fig & Hget & Hfig & Hp).
    rewrite Hp, (display_panel_ok ds theme prefix _ _ title data fig) by auto.
    unfold panel_events.
    replace ((3 * a + j) mod 3)%nat with j; [reflexivity|].
    rewrite Nat.add_comm, Nat.mul_comm, Nat.Div0.mod_add.
    symmetry. now apply Nat.mod_small.
  - apply Nat.ltb_ge in E.
    rewrite (lookup_ge_None_2 panels) by (rewrite panels_length; lia).
    rewrite display_panel_skip by exact E. now rewrite render_nil.
Qed.

Lemma display_row_grid a (st : app_state) :
  (3 * a < length ds)%nat ->
  (forall k, (3 * a <= k < length ds)%nat ->
             button_key prefix k ∉ widget_keys (page st)) ->
  display_row ds theme prefix (3 * a) st
  = (Done tt,
     render ((context (page st), Columns 3 "large")
             :: events_at (context (page st)) (3 * a)
             ++ events_at (context (page st)) (3 * a + 1)
             ++ events_at (context (page st)) (3 * a + 2))%list
       (keys_at (3 * a + 2) ∪ keys_at (3 * a + 1) ∪ keys_at (3 * a)) st).
Proof.
  intros Ha Hfresh.
  assert (Hneq : forall k k', k <> k' -> button_key prefix k <> button_key prefix k').
  { intros k k' Hne Heq. apply button_key_inj in Heq as [_ ?]. contradiction. }
  assert (Hslot : forall k x, x ∈ keys_at k -> x = button_key prefix k).
  { intros k x. unfold slot_keys. destruct (k <? length ds)%nat; set_solver. }
  unfold display_row, st_columns. unfold app_bind at 1. rewrite emit_render.
  change (py_range 0 3 1) with [0; 1; 2]%nat. cbn [for_each].
  unfold app_bind.
  rewrite (display_panel_slot a 0).
  2: lia.
  2: { intros Hk. cbn. rewrite (left_id_L ∅ (∪)). apply Hfresh. lia. }
  rewrite render_render.
  rewrite (display_panel_slot a 1).
  2: lia.
  2: { intros Hk. cbn. intros Hin.
       apply elem_of_union in Hin as [Hin|Hin];
         [apply elem_of_union in Hin as [Hin|Hin]|].
       - apply Hslot in Hin. apply Hneq in Hin; [contradiction | lia].
       - set_solver.
       - revert Hin. apply Hfresh. lia. }
  rewrite render_render.
  rewrite (display_panel_slot a 2).
  2: lia.
  2: { intros Hk. cbn. intros Hin.
       apply elem_of_union in Hin as [Hin|Hin];
         [apply elem_of_union in Hin as [Hin|Hin];
          [|apply elem_of_union in Hin as [Hin|Hin]]|].
       - apply Hslot in Hin. apply Hneq in Hin; [contradiction | lia].
       - apply Hslot in Hin. apply Hneq in Hin; [contradiction | lia].
       - set_solver.
       - revert Hin. apply Hfresh. lia. }
  rewrite render_render. cbn [context page render app_ret].
  replace (3 * a + 0)%nat with (3 * a)%nat by lia.
  f_equal. unfold render. cbn. f_equal. f_equal.
  - now rewrite <- !app_assoc.
  - set_solver.
Qed.

Lemma display_rows_grid fuel a (st : app_state) :
  (length ds <= 3 * a + 3 * fuel)%nat ->
  (forall k, (3 * a <= k < length ds)%nat ->
             button_key prefix k ∉ widget_keys (page st)) ->
  for_each (range_from fuel (3 * a) (length ds) 3) (display_row ds theme prefix) st
  = (Done tt,
     render (grid_events (context (page st)) prefix (3 * a) (drop (3 * a) panels))
       (keys_after (3 * a)) st).
Proof.
  revert a st; induction fuel as [|fuel IH]; intros a st Hfuel Hfresh.
  - cbn [range_from for_each app_ret].
    rewrite drop_ge by (rewrite panels_length; lia).
    unfold keys_from. replace (length ds - 3 * a)%nat with 0%nat by lia.
    cbn. now rewrite render_nil.
  - cbn [range_from]. destruct (3 * a <? length ds)%nat eqn:E.
    + apply Nat.ltb_lt in E. cbn [for_each]. unfold app_bind.
      rewrite display_row_grid by assumption.
      replace (3 * a + 3)%nat with (3 * S a)%nat by lia.
      rewrite IH.
      2: lia.
      2: { intros k Hk. cbn. intros Hin.
           assert (Hslot : forall j x, x ∈ keys_at j -> x = button_key prefix j).
           { intros j x. unfold slot_keys. destruct (j <? length ds)%nat; set_solver. }
           apply elem_of_union in Hin as [Hin|Hin].
           - assert (Hk' : exists j, (j < k)%nat /\ button_key prefix k = button_key prefix j).
             { repeat (apply elem_of_union in Hin as [Hin|Hin]);
                 apply Hslot in Hin; eexists; (split; [|exact Hin]); lia. }
             destruct Hk' as (j & Hj & Heq).
             apply button_key_inj in Heq as [_ ?]. lia.
           - revert Hin. apply Hfresh. lia. }
      rewrite render_render. cbn [context page render].
      f_equal. f_equal.
      * rewrite (grid_events_step _ (3 * a)), (grid_events_step _ (S (3 * a))),
          (grid_events_step _ (S (S (3 * a)))).
        replace (3 * a <? length ds)%nat with true by (symmetry; now apply Nat.ltb_lt).
        replace ((3 * a) mod 3 =? 0)%nat with true.
        2: { symmetry. apply Nat.eqb_eq. rewrite Nat.mul_comm. apply Nat.Div0.mod_mul. }
        replace ((S (3 * a)) mod 3 =? 0)%nat with false.
        2: { symmetry. apply Nat.eqb_neq.
             replace (S (3 * a)) with (1 + a * 3)%nat by lia.
             rewrite Nat.Div0.mod_add. cbn. lia. }
        replace ((S (S (3 * a))) mod 3 =? 0)%nat with false.
        2: { symmetry. apply Nat.eqb_neq.
             replace (S (S (3 * a))) with (2 + a * 3)%nat by lia.
             rewrite Nat.Div0.mod_add. cbn. lia. }
        replace (3 * a + 1)%nat with (S (3 * a)) by lia.
        replace (3 * a + 2)%nat with (S (S (3 * a))) by lia.
        replace (3 * S a)%nat with (S (S (S (3 * a)))) by lia.
        destruct (S (3 * a) <? length ds)%nat, (S (S (3 * a)) <? length ds)%nat;
          rewrite ?app_nil_l, <- ?app_comm_cons, <- ?app_assoc; reflexivity.
      * rewrite (keys_from_step (3 * a)), (keys_from_step (S (3 * a))),
          (keys_from_step (S (S (3 * a)))).
        replace (3 * a + 1)%nat with (S (3 * a)) by lia.
        replace (3 * a + 2)%nat with (S (S (3 * a))) by lia.
        replace (3 * S a)%nat with (S (S (S (3 * a)))) by lia.
        set_solver.
    + apply Nat.ltb_ge in E. cbn [for_each app_ret].
      rewrite drop_ge by (rewrite panels_length; lia).
      unfold keys_from. replace (length ds - 3 * a)%nat with 0%nat by lia.
      cbn. now rewrite render_nil.
Qed.

Lemma display_charts_render (st : app_state) :
  (forall k, (k < length ds)%nat -> button_key prefix k ∉ widget_keys (page st)) ->
  display_charts ds theme prefix st
  = (Done tt,
     render (grid_events (context (page st)) prefix 0 (panels_of ds figs))
       (button_keys prefix (length ds)) st).
Proof.
  intros Hfresh. unfold display_charts, py_range.
  pose proof (display_rows_grid (length ds) 0 st) as H.
  change (3 * 0)%nat with 0%nat in H.
  rewrite H; [| lia | intros k Hk; apply Hfresh; lia].
  unfold keys_from, button_keys. now rewrite Nat.sub_0_r.
Qed.

End GridFacts.


Section OutcomeFacts.
Context {G : Generator}.
Variables (ds : collection) (theme : gmap string yaml) (prefix : string).

Local Abbreviation ok := (grid_outcome ds theme prefix).

Lemma grid_outcome_refl (st : app_state) : ok st (Done tt, st).
Proof.
  unfold grid_outcome. cbn. repeat split; [set_solver|].
  exists []. split; [now rewrite app_nil_r | apply Forall_nil_2].
Qed.

Lemma grid_outcome_bind {A} (m : app A) (k : A -> app unit) (st : app_state) :
  (forall a st1, m st = (Done a, st1) -> ok st (Done tt, st1)) ->
  (forall e st1, m st = (Failed e, st1) -> ok st (Failed e, st1)) ->
  (forall a st1, m st = (Done a, st1) -> ok st1 (k a st1)) ->
  ok st (app_bind m k st).
Proof.
  intros Hdone Hfail Hk. unfold app_bind.
  destruct (m st) as [[a|e] st1] eqn:E; [|now apply Hfail].
  specialize (Hdone a st1 eq_refl). specialize (Hk a st1 eq_refl).
  destruct Hdone as (Hp & Hc & Hkeys & (new1 & Hs1 & Hn1) & _).
  destruct Hk as (Hp2 & Hc2 & Hkeys2 & (new2 & Hs2 & Hn2) & Hout).
  cbn in *. unfold grid_outcome.
  split; [congruence|]. split; [congruence|]. split; [set_solver|].
  split; [|exact Hout].
  exists (new1 ++ new2)%list. split.
  - rewrite Hs2, Hs1. now rewrite <- app_assoc.
  - now apply Forall_app.
Qed.

Lemma grid_outcome_for_each {A} (l : list A) (body : A -> app unit) :
  (forall x st, ok st (body x st)) ->
  forall st, ok st (for_each l body st).
Proof.
  intros Hbody. induction l as [|x l IH]; intros st; cbn [for_each].
  - apply grid_outcome_refl.
  - apply grid_outcome_bind.
    + intros [] st1 E. pose proof (Hbody x st) as H. rewrite E in H.
      exact H.
    + intros e st1 E. pose proof (Hbody x st) as H. now rewrite E in H.
    + intros [] st1 _. apply IH.
Qed.

Lemma grid_outcome_emit e (st : app_state) :
  grid_element e -> ok st (emit e st).
Proof.
  intros He. unfold emit, emit_in, grid_outcome. cbn.
  repeat split; [set_solver|].
  eexists. split; [reflexivity|].
  apply Forall_cons_2; [exact He | apply Forall_nil_2].
Qed.

Lemma display_panel_outcome i j (st : app_state) :
  ok st (display_panel ds theme prefix i j st).
Proof.
  unfold display_panel. destruct (i + j <? length ds)%nat eqn:E;
    [|apply grid_outcome_refl].
  apply Nat.ltb_lt in E.
  destruct (lookup_lt_is_Some_2 ds _ E) as [[title data] Hget'].
  assert (Hget : ds !! (i + j)%nat = Some (title, data)) by exact Hget'.
  rewrite Hget. unfold app_bind at 1. cbn [app_ret].
  unfold with_place. cbn [context page process shown widget_keys].
  unfold app_bind, st_subheader, st_plotly_chart, emit, emit_in.
  cbn [context page process shown widget_keys].
  pose proof (create_chart_line_not_none data theme) as Hnone.
  destruct (create_chart data "line" theme) as [[fig|]|err] eqn:Hfig;
    [| contradiction |]; cbn [app_py app_ret app_fail].
  - unfold st_button. cbn [context page process shown widget_keys].
    destruct (decide _) as [Hin|Hout]; unfold grid_outcome; cbn.
    + repeat split; [set_solver| |].
      * eexists. rewrite <- app_assoc. split; [reflexivity|].
        repeat (apply Forall_cons_2; [cbn; eauto|]). apply Forall_nil_2.
      * exists (i + j)%nat. split; [exact E | reflexivity].
    + repeat split; [set_solver|].
      eexists. rewrite <- !app_assoc. split; [reflexivity|].
      repeat (apply Forall_cons_2; [cbn; eauto|]). apply Forall_nil_2.
  - unfold grid_outcome; cbn. repeat split; [set_solver| |].
    + eexists. split; [reflexivity|].
      repeat (apply Forall_cons_2; [cbn; eauto|]). apply Forall_nil_2.
    + exists (i + j)%nat, title, data. now split.
Qed.

Lemma display_charts_outcome (st : app_state) :
  ok st (display_charts ds theme prefix st).
Proof.
  unfold display_charts. apply grid_outcome_for_each. clear st. intros i st.
  unfold display_row. apply grid_outcome_bind.
  - intros [] st1 E. pose proof (grid_outcome_emit (Columns 3 "large") st) as H.
    unfold st_columns in E. rewrite E in H. apply H. now split.
  - intros e st1 E. unfold st_columns, emit, emit_in in E. discriminate.
  - intros [] st1 _. apply grid_outcome_for_each. intros j st2.
    apply display_panel_outcome.
Qed.

End OutcomeFacts.

Section DisplayOutcome.
Context {G : Generator}.

(** X14. Whatever the collection, the theme and the page, and
    whether it completes or fails, [display_charts] leaves the process
    (generator and cache) and the active container as they were, removes no
    widget key, and only appends to the page: rows of three "large"-gap
    columns, captions, charts and "Purchase" buttons; it never shows a chart
    without a figure. *)
Theorem display_charts_page_effects ds theme prefix (st : app_state) :
  let st' := snd (display_charts ds theme prefix st) in
  process st' = process st
  /\ context (page st') = context (page st)
  /\ widget_keys (page st) ⊆ widget_keys (page st')
  /\ exists new,
       shown (page st') = (shown (page st) ++ new)%list
       /\ Forall (fun ce => grid_element (snd ce)) new
       /\ forall ctx fig w m, In (ctx, PlotlyChart fig w m) new -> is_Some fig.
Proof.
  destruct (display_charts_outcome ds theme prefix st)
    as (Hp & Hc & Hk & (new & Hs & Hnew) & _).
  cbv zeta. split; [exact Hp|]. split; [exact Hc|]. split; [exact Hk|].
  exists new. split; [exact Hs|]. split; [exact Hnew|].
  intros ctx fig w m Hin. rewrite Forall_forall in Hnew.
  apply (Hnew (ctx, PlotlyChart fig w m)). now apply list_elem_of_In.
Qed.


End DisplayOutcome.

(** ** The cache holds generated collections only *)

Section CacheShape.
Context {G : Generator}.

Lemma get_mock_data_mock_collection region w ds w' :
  get_mock_data region w = (Ok ds, w') -> mock_collection ds.
Proof.
  intros H. destruct w as [s c].
  destruct (get_mock_data_run_shape region s c) as (ds0 & calls & H0 & Hs & Ht & _).
  rewrite H in H0. injection H0 as <- _. now split.
Qed.

Lemma cached_mock_cache region (ss : session) :
  mock_cache ss ->
  exists ds ss',
    cached_get_mock_data region ss = (Ok ds, ss')
    /\ mock_collection ds
    /\ mock_cache ss'
    /\ cache ss' = <[region := ds]> (cache ss)
    /\ (forall other v, cache ss !! other = Some v -> cache ss' !! other = Some v).
Proof.
  intros Hinv. destruct (cache ss !! region) as [ds|] eqn:E.
  - exists ds, ss. split; [now apply cached_hit|]. split; [now apply (Hinv region)|].
    split; [exact Hinv|]. split; [now rewrite insert_id | auto].
  - destruct (cached_miss region ss E) as (ds & calls & Hbody & _ & Hc).
    pose proof (get_mock_data_mock_collection _ _ _ _ Hbody) as Hds.
    eexists ds, _. split; [exact Hc|]. split; [exact Hds|]. cbn [cache].
    split; [|split; [reflexivity|]].
    + intros r v Hr. cbn [cache] in Hr.
      destruct (decide (r = region)) as [->|Hne].
      * rewrite lookup_insert_eq in Hr. now injection Hr as <-.
      * rewrite lookup_insert_ne in Hr by auto. now apply (Hinv r).
    + intros other v Hv. rewrite lookup_insert_ne; [exact Hv|]. congruence.
Qed.

(** X3. If every collection already held by the cache has the shape
    [get_mock_data] produces, a call of the memoised function (hit or miss)
    returns such a collection, leaves the cache equal to the old one with
    this region bound to the returned collection, keeps every entry that was
    there, and the cache again holds only such collections. *)
Theorem cached_get_mock_data_invariant region (ss : session) :
  mock_cache ss ->
  exists ds ss',
    cached_get_mock_data region ss = (Ok ds, ss')
    /\ mock_collection ds
    /\ mock_cache ss'
    /\ cache ss' = <[region := ds]> (cache ss)
    /\ (forall other v, cache ss !! other = Some v -> cache ss' !! other = Some v).
Proof. apply cached_mock_cache. Qed.

End CacheShape.

Lemma Forall_exists_Forall2 {A B} (P : A -> B -> Prop) (l : list A) :
  Forall (fun x => exists y, P x y) l -> exists k, Forall2 P l k.
Proof.
  induction 1 as [|x l [y Hy] _ [k IH]].
  - exists []. constructor.
  - exists (y :: k). now constructor.
Qed.

Lemma mock_collection_charts ds theme :
  mock_collection ds -> complete_theme theme ->
  exists figs,
    Forall2 (fun kd fig => create_chart (snd kd) "line" theme = Ok (Some fig)) ds figs.
Proof.
  intros [_ Htables] Htheme. apply Forall_exists_Forall2.
  eapply Forall_impl; [exact Htables|]. intros [name df] Htable. cbn in *.
  destruct (series_table_chart_inputs df theme Htable Htheme) as (palette & Hin & _).
  destruct (create_chart_line_traces df theme _ palette Hin) as (fig & Hfig & _).
  now exists fig.
Qed.

Lemma mock_collection_length ds : mock_collection ds -> length ds = 12%nat.
Proof.
  intros [Hs _]. apply (f_equal (@length _)) in Hs. unfold schema_of in Hs.
  now rewrite length_map in Hs.
Qed.

Lemma button_keys_other_prefix p q n k :
  p <> q -> button_key p k ∉ button_keys q n.
Proof.
  intros Hne Hin. unfold button_keys in Hin.
  apply elem_of_list_to_set, list_elem_of_fmap in Hin as (j & Heq & _).
  apply button_key_inj in Heq as [? _]. contradiction.
Qed.

(** ** [main] *)

Section MainFacts.
Context {G : Generator} {L : YamlLoader} {V : Viewer}.

Lemma region_tab_ok k heading region themes name theme (st : app_state) :
  context (page st) = [] ->
  themes !! name = Some (YMap theme) ->
  complete_theme theme ->
  mock_cache (process st) ->
  (forall j, button_key region j ∉ widget_keys (page st)) ->
  exists ds ss' figs,
    cached_get_mock_data region (process st) = (Ok ds, ss')
    /\ mock_collection ds /\ mock_cache ss'
    /\ cache ss' = <[region := ds]> (cache (process st))
    /\ Forall2 (fun kd fig => create_chart (snd kd) "line" theme = Ok (Some fig)) ds figs
    /\ region_tab k heading region themes (Some name) st
       = (Done tt,
          mkapp ss'
            (mkui [] (shown (page st) ++ tab_events k heading region ds figs)
               (button_keys region 12 ∪ widget_keys (page st)))).
Proof.
  intros Hctx Hname Htheme Hinv Hfresh.
  destruct (cached_mock_cache region (process st) Hinv)
    as (ds & ss' & Hc & Hds & Hinv' & Hcache & _).
  destruct (mock_collection_charts ds theme Hds Htheme) as (figs & Hfigs).
  exists ds, ss', figs. repeat (split; [assumption|]).
  unfold region_tab, with_place. rewrite Hctx.
  unfold app_bind at 1. unfold st_markdown. rewrite emit_render.
  unfold app_bind at 1. unfold app_cached. cbn [process render page].
  rewrite Hc. unfold app_bind at 1. unfold themes_getitem. rewrite Hname.
  cbn [app_ret].
  rewrite (display_charts_render ds theme region figs Hfigs).
  2: { intros j _. cbn. rewrite (left_id_L ∅ (∪)). apply Hfresh. }
  rewrite (mock_collection_length ds Hds). unfold render.
  cbn [process page context shown widget_keys].
  rewrite (left_id_L ∅ (∪)). unfold tab_events. rewrite <- app_assoc.
  reflexivity.
Qed.

Lemma main_header listing themes (ss : session) :
  load_themes listing = Ok themes ->
  run_script listing ss
  = app_bind (region_tab 0 "### US Data" "us" themes
                (selectbox_choice "Select Theme" (dom themes)))
      (fun _ =>
       app_bind (region_tab 1 "### AUS Data" "aus" themes
                   (selectbox_choice "Select Theme" (dom themes)))
         (fun _ => region_tab 2 "### EU Data" "eu" themes
                     (selectbox_choice "Select Theme" (dom themes))))
      (mkapp ss (mkui [] (page_header (dom themes)) ∅)).
Proof.
  intros Hload. unfold run_script, main. rewrite Hload.
  unfold app_bind at 1. unfold st_title. rewrite emit_render.
  unfold app_bind at 1. unfold st_markdown. rewrite emit_render.
  unfold app_bind at 1. cbn [app_py app_ret].
  unfold app_bind at 1. unfold st_sidebar_selectbox.
  unfold app_bind at 1. unfold emit_in. cbn [app_ret].
  unfold app_bind at 1. unfold st_tabs. rewrite emit_render.
  unfold render, fresh_page. cbn [process page context shown widget_keys app].
  rewrite !(left_id_L ∅ (∪)). reflexivity.
Qed.

Lemma main_gallery listing themes (ss : session) :
  load_themes listing = Ok themes ->
  themes <> ∅ ->
  (forall name doc, themes !! name = Some doc ->
     exists theme, doc = YMap theme /\ complete_theme theme) ->
  mock_cache ss ->
  exists name theme us aus eu figs_us figs_aus figs_eu st',
    run_script listing ss = (Done tt, st')
    /\ selectbox_choice "Select Theme" (dom themes) = Some name
    /\ themes !! name = Some (YMap theme)
    /\ cache (process st')
       = <["eu" := eu]> (<["aus" := aus]> (<["us" := us]> (cache ss)))
    /\ mock_collection us /\ mock_collection aus /\ mock_collection eu
    /\ Forall2 (fun kd fig => create_chart (snd kd) "line" theme = Ok (Some fig))
         us figs_us
    /\ Forall2 (fun kd fig => create_chart (snd kd) "line" theme = Ok (Some fig))
         aus figs_aus
    /\ Forall2 (fun kd fig => create_chart (snd kd) "line" theme = Ok (Some fig))
         eu figs_eu
    /\ shown (page st')
       = (page_header (dom themes)
          ++ tab_events 0 "### US Data" "us" us figs_us
          ++ tab_events 1 "### AUS Data" "aus" aus figs_aus
          ++ tab_events 2 "### EU Data" "eu" eu figs_eu)%list
    /\ widget_keys (page st')
       = button_keys "eu" 12 ∪ button_keys "aus" 12 ∪ button_keys "us" 12.
Proof.
  intros Hload Hne Hthemes Hinv.
  destruct (selectbox_choice "Select Theme" (dom themes)) as [name|] eqn:Hsel.
  2: { apply selectbox_choice_none in Hsel. apply dom_empty_inv_L in Hsel.
       contradiction. }
  pose proof (selectbox_choice_in _ _ _ Hsel) as Hin.
  apply elem_of_dom in Hin as [doc Hdoc].
  destruct (Hthemes name doc Hdoc) as (theme & -> & Htheme).
  rewrite (main_header listing themes ss Hload), Hsel.
  set (st0 := mkapp ss (mkui [] (page_header (dom themes)) ∅)).
  destruct (region_tab_ok 0 "### US Data" "us" themes name theme st0)
    as (us & ss1 & figs_us & _ & Hus & Hinv1 & Hc1 & Hf1 & Hrun1);
    [reflexivity | assumption | assumption | exact Hinv | cbn; set_solver |].
  unfold app_bind at 1. rewrite Hrun1.
  set (st1 := mkapp ss1 _).
  destruct (region_tab_ok 1 "### AUS Data" "aus" themes name theme st1)
    as (aus & ss2 & figs_aus & _ & Haus & Hinv2 & Hc2 & Hf2 & Hrun2);
    [reflexivity | assumption | assumption | exact Hinv1 | |].
  { intros j. subst st1 st0. cbn [widget_keys page].
    rewrite (right_id_L ∅ (∪)).
    apply button_keys_other_prefix. discriminate. }
  unfold app_bind at 1. rewrite Hrun2.
  set (st2 := mkapp ss2 _).
  destruct (region_tab_ok 2 "### EU Data" "eu" themes name theme st2)
    as (eu & ss3 & figs_eu & _ & Heu & Hinv3 & Hc3 & Hf3 & Hrun3);
    [reflexivity | assumption | assumption | exact Hinv2 | |].
  { intros j. subst st2 st1 st0. cbn [widget_keys page].
    rewrite (right_id_L ∅ (∪)). intros Hj.
    apply elem_of_union in Hj as [Hj|Hj];
      revert Hj; apply button_keys_other_prefix; discriminate. }
  rewrite Hrun3.
  exists name, theme, us, aus, eu, figs_us, figs_aus, figs_eu. eexists.
  split; [reflexivity|]. split; [reflexivity|]. split; [exact Hdoc|].
  cbn [process page shown widget_keys].
  split.
  { subst st2 st1 st0. cbn [process] in Hc1, Hc2, Hc3.
    rewrite Hc3, Hc2, Hc1. reflexivity. }
  repeat (split; [assumption|]).
  split.
  - subst st2 st1 st0. cbn [process page shown widget_keys].
    now rewrite <- !app_assoc.
  - subst st2 st1 st0. cbn [process page shown widget_keys].
    rewrite (right_id_L ∅ (∪)). now rewrite (assoc_L (∪)).
Qed.


(** X17. With no [*.yaml] file in the themes directory the select box
    has no option and nothing is selected, and the script fails with the
    [KeyError] of [themes[selected_theme]] in the first tab: after the
    title, the style sheet, the empty select box, the tabs and the heading
    "### US Data", and after the data for "us" went through the cache; no
    chart is shown. *)
Theorem main_without_themes listing (ss : session) :
  Forall (fun f => matches_yaml (fst f) = false) listing ->
  exists ds ss',
    cached_get_mock_data "us" ss = (Ok ds, ss')
    /\ run_script listing ss
       = (Failed (ThemeKeyError None),
          mkapp ss'
            (mkui []
               (page_header ∅ ++ [([InTab 0], Markdown "### US Data" false)])
               ∅)).
Proof.
  intros Hno.
  assert (Hload : load_themes listing = Ok ∅)
    by (unfold load_themes; now rewrite (glob_yaml_none listing Hno)).
  destruct (cached_returns "us" ss) as (ds & ss' & Hc & _).
  exists ds, ss'. split; [exact Hc|].
  rewrite (main_header listing ∅ ss Hload). rewrite dom_empty_L.
  assert (Hsel : selectbox_choice "Select Theme" ∅ = None).
  { destruct (selectbox_choice "Select Theme" ∅) as [x|] eqn:E; [|reflexivity].
    apply selectbox_choice_in in E. set_solver. }
  rewrite Hsel. unfold app_bind at 1.
  unfold region_tab at 1, with_place. cbn [context page process shown widget_keys].
  unfold app_bind at 1. unfold st_markdown. rewrite emit_render.
  unfold app_bind at 1. unfold app_cached. cbn [render process page].
  rewrite Hc. unfold app_bind at 1. cbn [themes_getitem app_fail].
  cbn [process page context shown widget_keys].
  now rewrite (left_id_L ∅ (∪)).
Qed.

Lemma main_load_raise listing e (ss : session) :
  load_themes listing = Raise e ->
  exists st, run_script listing ss = (Failed (PythonError e), st) /\ process st = ss.
Proof.
  intros Hload. unfold run_script, main. rewrite Hload.
  unfold app_bind, st_title, st_markdown, emit, emit_in.
  cbn [app_py app_fail]. eexists. split; reflexivity.
Qed.

(** X18. When [load_themes] raises, the script stops with that
    exception after the title and the style sheet: no select box, no tabs,
    no widget key, and the process (generator and cache) untouched. *)
Theorem main_load_failure listing e (ss : session) :
  load_themes listing = Raise e ->
  run_script listing ss
  = (Failed (PythonError e),
     mkapp ss
       (mkui []
          [([], Title "Economic Data Visualization Gallery");
           ([], Markdown page_css true)]
          ∅)).
Proof.
  intros Hload. unfold run_script, main. rewrite Hload.
  unfold app_bind at 1. unfold st_title. rewrite emit_render.
  unfold app_bind at 1. unfold st_markdown. rewrite emit_render.
  unfold app_bind at 1. cbn [app_py app_fail].
  unfold render, fresh_page. cbn [process page context shown widget_keys app].
  now rewrite !(left_id_L ∅ (∪)).
Qed.

(** What a region tab leaves in the process, whatever its outcome: the
    result of the memoised call. *)
Lemma region_tab_process k heading region themes selected (st : app_state) :
  exists ds ss',
    cached_get_mock_data region (process st) = (Ok ds, ss')
    /\ process (snd (region_tab k heading region themes selected st)) = ss'.
Proof.
  destruct (cached_returns region (process st)) as (ds & ss' & Hc & _).
  exists ds, ss'. split; [exact Hc|].
  unfold region_tab, with_place.
  unfold app_bind at 1. unfold st_markdown, emit, emit_in.
  cbn [context page process shown widget_keys].
  unfold app_bind at 1. unfold app_cached. cbn [process page].
  rewrite Hc. unfold app_bind at 1.
  match goal with |- context [themes_getitem ?t ?s ?x] =>
    destruct (themes_getitem t s x) as [[theme|e] st1] eqn:Hget
  end.
  - assert (Hst1 : process st1 = ss').
    { unfold themes_getitem in Hget.
      repeat (case_match; try discriminate); unfold app_ret, app_fail in Hget;
        injection Hget as _ <-; reflexivity. }
    pose proof (display_charts_outcome ds theme region st1) as (Hp & _).
    destruct (display_charts ds theme region st1) as [r st2]. cbn in *. congruence.
  - unfold themes_getitem in Hget.
    repeat (case_match; try discriminate); unfold app_ret, app_fail in Hget;
      injection Hget as _ <-; reflexivity.
Qed.

Lemma app_bind_process {A B} (m : app A) (k : A -> app B) (st : app_state)
    (P : session -> Prop) :
  P (process (snd (m st))) ->
  (forall a st1, m st = (Done a, st1) -> P (process (snd (k a st1)))) ->
  P (process (snd (app_bind m k st))).
Proof.
  intros Hm Hk. unfold app_bind. destruct (m st) as [[a|e] st1] eqn:E.
  - now apply Hk.
  - exact Hm.
Qed.

Lemma app_bind_Done {A B} (m : app A) (k : A -> app B) (st st' : app_state) b :
  app_bind m k st = (Done b, st') ->
  exists a st1, m st = (Done a, st1) /\ k a st1 = (Done b, st').
Proof.
  unfold app_bind. destruct (m st) as [[a|e] st1]; [|discriminate].
  intros H. now exists a, st1.
Qed.

Lemma region_tab_cached k heading region themes selected (st : app_state) :
  is_Some (cache (process st) !! region) ->
  process (snd (region_tab k heading region themes selected st)) = process st.
Proof.
  intros [ds Hds].
  destruct (region_tab_process k heading region themes selected st)
    as (ds' & ss' & Hc & ->).
  rewrite (cached_hit region _ ds Hds) in Hc. congruence.
Qed.

Lemma region_tab_caches k heading region themes selected (st : app_state) :
  is_Some (cache (process (snd (region_tab k heading region themes selected st)))
             !! region)
  /\ (forall other,
        is_Some (cache (process st) !! other) ->
        is_Some (cache (process (snd (region_tab k heading region themes selected st)))
                   !! other)).
Proof.
  destruct (region_tab_process k heading region themes selected st)
    as (ds' & ss' & Hc & ->).
  destruct (cached_returns region (process st)) as (ds & ss1 & Hc1 & Hin & Hother).
  rewrite Hc in Hc1. injection Hc1 as <- <-.
  split; [now exists ds'|].
  intros other Hsome. destruct (decide (other = region)) as [->|Hne].
  - now exists ds'.
  - now rewrite Hother.
Qed.

Lemma run_script_caches listing (ss : session) r (st : app_state) :
  run_script listing ss = (Done r, st) -> gallery_cached (process st).
Proof.
  destruct (load_themes listing) as [themes|e] eqn:Hload.
  - rewrite (main_header listing themes ss Hload).
    intros H.
    apply app_bind_Done in H as (u1 & st1 & H1 & H).
    apply app_bind_Done in H as (u2 & st2 & H2 & H3).
    set (sel := selectbox_choice "Select Theme" (dom themes)) in *.
    pose proof (region_tab_caches 0 "### US Data" "us" themes sel
                  (mkapp ss (mkui [] (page_header (dom themes)) ∅))) as [Hus _].
    rewrite H1 in Hus. cbn [snd] in Hus.
    pose proof (region_tab_caches 1 "### AUS Data" "aus" themes sel st1) as [Haus Hk1].
    rewrite H2 in Haus, Hk1. cbn [snd] in Haus, Hk1.
    pose proof (region_tab_caches 2 "### EU Data" "eu" themes sel st2) as [Heu Hk2].
    rewrite H3 in Heu, Hk2. cbn [snd] in Heu, Hk2.
    intros region Hin. unfold gallery_regions in Hin.
    apply elem_of_cons in Hin as [->|Hin]; [now apply Hk2, Hk1|].
    apply elem_of_cons in Hin as [->|Hin]; [now apply Hk2|].
    apply elem_of_cons in Hin as [->|Hin]; [assumption|].
    now apply elem_of_nil in Hin.
  - destruct (main_load_raise listing e ss Hload) as (st' & -> & _). discriminate.
Qed.

Lemma run_script_cached listing (ss : session) :
  gallery_cached ss -> process (snd (run_script listing ss)) = ss.
Proof.
  intros Hc.
  assert (Hus : is_Some (cache ss !! "us")) by (apply Hc; set_solver).
  assert (Haus : is_Some (cache ss !! "aus")) by (apply Hc; set_solver).
  assert (Heu : is_Some (cache ss !! "eu")) by (apply Hc; set_solver).
  destruct (load_themes listing) as [themes|e] eqn:Hload.
  - rewrite (main_header listing themes ss Hload).
    set (sel := selectbox_choice "Select Theme" (dom themes)).
    set (st0 := mkapp ss (mkui [] (page_header (dom themes)) ∅)).
    assert (H0 : process (snd (region_tab 0 "### US Data" "us" themes sel st0)) = ss)
      by now rewrite region_tab_cached.
    apply (app_bind_process _ _ st0 (fun s => s = ss)); [exact H0|].
    intros u1 st1 H1. rewrite H1 in H0. cbn [snd] in H0.
    assert (H1' : process (snd (region_tab 1 "### AUS Data" "aus" themes sel st1)) = ss)
      by (rewrite region_tab_cached; [exact H0 | now rewrite H0]).
    apply (app_bind_process _ _ st1 (fun s => s = ss)); [exact H1'|].
    intros u2 st2 H2. rewrite H2 in H1'. cbn [snd] in H1'.
    rewrite region_tab_cached; [exact H1' | now rewrite H1'].
  - now destruct (main_load_raise listing e ss Hload) as (st' & -> & Hp).
Qed.

End MainFacts.

(** X19. After one run of the script has completed, a later run in
    the same process leaves the process state as it is, whatever the themes
    directory, the loader and the viewer's choice are by then and whether or
    not the later run completes: the three regions come from the cache and
    no new random number is drawn. *)
Theorem main_rerun_keeps_data {G : Generator} {L1 L2 : YamlLoader} {V1 V2 : Viewer}
    listing1 listing2 (ss : session) r (st : app_state) :
  run_script (L := L1) (V := V1) listing1 ss = (Done r, st) ->
  process (snd (run_script (L := L2) (V := V2) listing2 (process st))) = process st.
Proof.
  intros Hrun. apply run_script_cached.
  exact (run_script_caches (L := L1) (V := V1) listing1 ss r st Hrun).
Qed.

(** ** The properties on concrete inputs *)

Lemma minimal_theme_complete : complete_theme Fixtures.minimal_theme.
Proof.
  unfold complete_theme. repeat split; eexists; try eexists; vm_compute; reflexivity.
Qed.

Lemma complete_text_loads :
  FlatYaml.load Gallery.complete_text = Ok (YMap Fixtures.minimal_theme).
Proof. vm_compute. reflexivity. Qed.

Lemma themes_dir_loads :
  load_themes (L := FlatYaml.loader) Gallery.themes_dir
  = Ok {["dark" := YMap Fixtures.minimal_theme]}.
Proof. vm_compute. reflexivity. Qed.

Lemma broken_dir_raises :
  load_themes (L := FlatYaml.loader) Gallery.broken_dir = Raise (OSError "light.yaml").
Proof. vm_compute. reflexivity. Qed.

Lemma colliding_dir_loads :
  load_themes (L := FlatYaml.loader) Gallery.colliding_dir
  = Ok {[".yaml" := YMap Fixtures.minimal_theme]}.
Proof. vm_compute. reflexivity. Qed.

Lemma empty_session_mock_cache : mock_cache Fixtures.empty_session.
Proof. intros region ds H. cbn in H. now rewrite lookup_empty in H. Qed.

Lemma two_tables_chart :
  exists figs,
    Forall2 (fun kd fig =>
               create_chart (snd kd) "line" Fixtures.minimal_theme = Ok (Some fig))
      Gallery.two_tables figs.
Proof.
  apply Forall_exists_Forall2.
  repeat (apply Forall_cons_2; [|]); [| |apply Forall_nil_2]; cbn [snd].
  all: match goal with
       | |- exists fig, create_chart ?d _ _ = _ =>
           destruct (create_chart_line_traces d Fixtures.minimal_theme
                       (ColDatetime Fixtures.two_dates) [YStr "#111"; YStr "#222"])
             as (fig & Hfig & _); [|now exists fig]
       end.
  all: apply minimal_theme_inputs_ok;
    [ match goal with
      | |- NoDup ?l => apply (bool_decide_eq_true_1 (NoDup l)); vm_compute; reflexivity
      end
    | reflexivity | discriminate ].
Qed.

Lemma themes_dir_run_done :
  exists st,
    run_script (L := FlatYaml.loader) (V := FirstOption.viewer)
      Gallery.themes_dir Fixtures.empty_session = (Done tt, st).
Proof.
  destruct (main_gallery (L := FlatYaml.loader) (V := FirstOption.viewer)
              Gallery.themes_dir _ Fixtures.empty_session themes_dir_loads)
    as (name & theme & us & aus & eu & f1 & f2 & f3 & st & Hrun & _).
  - intros H. apply (f_equal (fun m => m !! "dark")) in H.
    rewrite lookup_singleton_eq, lookup_empty in H. discriminate.
  - intros name doc H. apply lookup_singleton_Some in H as [_ <-].
    eexists. split; [reflexivity | exact minimal_theme_complete].
  - exact empty_session_mock_cache.
  - now exists st.
Qed.

Lemma cached_get_mock_data_invariant_witness :
  exists ds ss',
    cached_get_mock_data "us" Fixtures.empty_session = (Ok ds, ss')
    /\ mock_collection ds /\ mock_cache ss'
    /\ cache ss' = <["us" := ds]> ∅.
Proof.
  destruct (cached_get_mock_data_invariant "us" Fixtures.empty_session
              empty_session_mock_cache)
    as (ds & ss' & Hc & Hds & Hinv & Hcache & _).
  exists ds, ss'. split; [exact Hc|]. split; [exact Hds|]. split; [exact Hinv|].
  exact Hcache.
Defined.


Lemma create_chart_fixed_policy_witness :
  exists fig,
    create_chart Fixtures.rate_table "line" Fixtures.minimal_theme = Ok (Some fig)
    /\ height (fig_layout fig) = Some 300
    /\ tickformat (xaxis (fig_layout fig)) = Some "%b %Y"
    /\ Forall (fun t => tr_line_width t = Some 2
                        /\ tr_hovertemplate t
                           = Some "%{y:,.1f}<br>%{x|%B %Y}<extra></extra>")
         (fig_data fig).
Proof.
  destruct two_tables_chart as (figs & Hfigs).
  apply Forall2_cons_inv_l in Hfigs as (fig & rest & Hfig & _ & _). cbn [snd] in Hfig.
  destruct (create_chart_fixed_policy _ _ _ fig Hfig)
    as (_ & Hh & _ & _ & Ht & _ & Htr).
  exists fig. repeat split; assumption.
Defined.


Lemma load_themes_no_yaml_witness :
  load_themes (L := FlatYaml.loader) Gallery.no_themes_dir = Ok ∅.
Proof.
  apply (load_themes_no_yaml (L := FlatYaml.loader) Gallery.no_themes_dir).
  repeat (apply Forall_cons_2; [reflexivity|]). apply Forall_nil_2.
Defined.

Lemma load_themes_first_failure_witness :
  load_themes (L := FlatYaml.loader) Gallery.broken_dir = Raise (OSError "light.yaml").
Proof.
  apply (load_themes_first_failure (L := FlatYaml.loader)
           [("dark.yaml", RegularFile Gallery.complete_text)] "light.yaml" Directory
           [("night.yaml", RegularFile Gallery.complete_text)] (OSError "light.yaml")).
  - apply Forall_cons_2; [|apply Forall_nil_2].
    exists Gallery.complete_text, (YMap Fixtures.minimal_theme).
    split; [reflexivity | exact complete_text_loads].
  - reflexivity.
  - reflexivity.
Defined.

Lemma load_themes_last_wins_witness :
  exists themes,
    load_themes (L := FlatYaml.loader) Gallery.colliding_dir = Ok themes
    /\ themes !! ".yaml" = Some (YMap Fixtures.minimal_theme).
Proof.
  exists {[".yaml" := YMap Fixtures.minimal_theme]}.
  split; [exact colliding_dir_loads|].
  destruct (load_themes_last_wins (L := FlatYaml.loader)
              [(".yaml", RegularFile FlatYaml.dark_text)] ".yaml.yaml"
              Gallery.complete_text [] _ colliding_dir_loads eq_refl
              (Forall_nil_2 _))
    as (doc & Hdoc & Hget).
  change (FlatYaml.load Gallery.complete_text = Ok doc) in Hdoc.
  rewrite complete_text_loads in Hdoc. injection Hdoc as <-. exact Hget.
Defined.

Lemma load_themes_names_witness :
  exists themes,
    load_themes (L := FlatYaml.loader) Gallery.colliding_dir = Ok themes
    /\ dom themes = list_to_set [".yaml"; ".yaml"].
Proof.
  exists {[".yaml" := YMap Fixtures.minimal_theme]}.
  split; [exact colliding_dir_loads|].
  exact (load_themes_names (L := FlatYaml.loader) Gallery.colliding_dir _
           colliding_dir_loads).
Defined.

Lemma button_key_distinct_witness : button_key "us" 3 <> button_key "aus" 3.
Proof.
  apply (button_key_distinct "us" 3 "aus" 3). left. discriminate.
Defined.




Lemma main_without_themes_witness :
  exists st,
    run_script (L := FlatYaml.loader) (V := FirstOption.viewer)
      Gallery.no_themes_dir Fixtures.empty_session
    = (Failed (ThemeKeyError None), st).
Proof.
  destruct (main_without_themes (L := FlatYaml.loader) (V := FirstOption.viewer)
              Gallery.no_themes_dir Fixtures.empty_session)
    as (ds & ss' & _ & Hrun).
  - repeat (apply Forall_cons_2; [reflexivity|]). apply Forall_nil_2.
  - eexists. exact Hrun.
Defined.

Lemma main_load_failure_witness :
  run_script (L := FlatYaml.loader) (V := FirstOption.viewer)
    Gallery.broken_dir Fixtures.empty_session
  = (Failed (PythonError (OSError "light.yaml")),
     mkapp Fixtures.empty_session
       (mkui []
          [([], Title "Economic Data Visualization Gallery");
           ([], Markdown page_css true)]
          ∅)).
Proof.
  exact (main_load_failure (L := FlatYaml.loader) (V := FirstOption.viewer)
           Gallery.broken_dir (OSError "light.yaml") Fixtures.empty_session
           broken_dir_raises).
Defined.

Lemma main_rerun_keeps_data_witness :
  exists st,
    run_script (L := FlatYaml.loader) (V := FirstOption.viewer)
      Gallery.themes_dir Fixtures.empty_session = (Done tt, st)
    /\ process (snd (run_script (L := FlatYaml.loader) (V := FirstOption.viewer)
                       Gallery.broken_dir (process st)))
       = process st.
Proof.
  destruct themes_dir_run_done as (st & Hrun). exists st. split; [exact Hrun|].
  exact (main_rerun_keeps_data (L1 := FlatYaml.loader) (L2 := FlatYaml.loader)
           (V1 := FirstOption.viewer) (V2 := FirstOption.viewer)
           Gallery.themes_dir Gallery.broken_dir Fixtures.empty_session tt st Hrun).
Defined.
